(** * founder-path: the onboarding wizard, the session controller and the
      report view of the single-page client, embedded in Rocq.

    Sources embedded here:
    - [frontend/src/services/api.js]        (module [Api])
    - [frontend/src/context/AuthContext.jsx] (module [AuthContext])
    - the application root: route table and [ProtectedRoute] (module [App])
    - [frontend/src/pages/Onboarding.jsx]   (module [Onboarding])
    - [frontend/src/pages/Results.jsx]      (module [Results])

    Asynchronous handlers are embedded in a state-and-exception monad over
    a [World] that holds the browser location, the React state of the three
    components and an ordered log of every observable effect (backend
    calls, state setters, navigations, notices).  The backend is an
    oracle, typed by endpoint. *)

From Stdlib Require Import String Ascii List ZArith Bool Lia Permutation.
Import ListNotations.
Open Scope string_scope.
Open Scope Z_scope.

(* ================================================================== *)
(** * Part I: definitions                                              *)
(* ================================================================== *)

(** ** The JavaScript primitives the sources rely on *)
Module Js.

(** JS numbers that the code manipulates are integer valued; they are
    modelled by [Z] (exact below 2^53), with [None] for [NaN] where a
    primitive can produce it. *)
Definition number := Z.

(** Truthiness of a string: only the empty string is falsy. *)
Definition truthy_str (s : string) : bool :=
  match s with EmptyString => false | String _ _ => true end.

(** Truthiness of a number ([NaN] is handled by the callers' [option]). *)
Definition truthy_num (n : number) : bool := negb (n =? 0).

(** [Array.prototype.includes] on an array of strings. *)
Definition includes (item : string) (arr : list string) : bool :=
  existsb (String.eqb item) arr.

(** [arr.filter(i => i !== item)]. *)
Definition filter_neq (item : string) (arr : list string) : list string :=
  filter (fun i => negb (String.eqb i item)) arr.

(** [String.prototype.includes]. *)
Fixpoint str_includes (needle hay : string) : bool :=
  String.prefix needle hay ||
  match hay with
  | EmptyString => false
  | String _ rest => str_includes needle rest
  end.

(** [s.substring(1)]. *)
Definition substring1 (s : string) : string :=
  match s with EmptyString => EmptyString | String _ rest => rest end.

(** *** [parseInt(s)] with the radix left undefined *)

Definition is_white_space (c : ascii) : bool :=
  let n := nat_of_ascii c in
  (Nat.eqb n 32 || Nat.eqb n 9 || Nat.eqb n 10 || Nat.eqb n 11 ||
   Nat.eqb n 12 || Nat.eqb n 13)%bool.

Fixpoint trim_start (s : string) : string :=
  match s with
  | String c rest => if is_white_space c then trim_start rest else s
  | EmptyString => EmptyString
  end.

(** Value of a character as a digit, whatever the radix. *)
Definition digit_value (c : ascii) : option Z :=
  let n := Z.of_nat (nat_of_ascii c) in
  if (48 <=? n) && (n <=? 57) then Some (n - 48)
  else if (97 <=? n) && (n <=? 122) then Some (n - 87)
  else if (65 <=? n) && (n <=? 90) then Some (n - 55)
  else None.

(** Reads the longest prefix of digits valid in [radix]; [acc] is [None]
    as long as no digit has been read. *)
Fixpoint read_digits (radix : Z) (acc : option Z) (s : string) : option Z :=
  match s with
  | EmptyString => acc
  | String c rest =>
      match digit_value c with
      | Some d =>
          if d <? radix
          then read_digits radix
                 (Some (match acc with Some a => a * radix + d | None => d end))
                 rest
          else acc
      | None => acc
      end
  end.

Definition parseInt (input : string) : option number :=
  let s := trim_start input in
  let '(sign, s) :=
    match s with
    | String "-" rest => (-1, rest)
    | String "+" rest => (1, rest)
    | _ => (1, s)
    end in
  let '(radix, s) :=
    match s with
    | String "0" (String "x" rest) => (16, rest)
    | String "0" (String "X" rest) => (16, rest)
    | _ => (10, s)
    end in
  match read_digits radix None s with
  | Some n => Some (sign * n)
  | None => None
  end.

(** [parseInt(s) || dflt]: [NaN] and zero are falsy. *)
Definition parseInt_or (input : string) (dflt : number) : number :=
  match parseInt input with
  | Some n => if truthy_num n then n else dflt
  | None => dflt
  end.

(** *** [new URLSearchParams(q).get(key)]

    The urlencoded parser of the platform: a leading [?] is dropped, the
    input is split on [&], each piece on its first [=], [+] stands for a
    space and [%XX] for the byte [XX].  Strings are byte sequences. *)

Fixpoint split_on (sep : ascii) (cur : string) (s : string) : list string :=
  match s with
  | EmptyString => [cur]
  | String c rest =>
      if Ascii.eqb c sep then cur :: split_on sep EmptyString rest
      else split_on sep (cur ++ String c EmptyString) rest
  end.

(** Splits on the first [=]; without one the value is empty. *)
Fixpoint split_pair (name : string) (s : string) : string * string :=
  match s with
  | EmptyString => (name, EmptyString)
  | String c rest =>
      if Ascii.eqb c "="%char then (name, rest)
      else split_pair (name ++ String c EmptyString) rest
  end.

Definition hex_value (c : ascii) : option Z :=
  match digit_value c with
  | Some d => if d <? 16 then Some d else None
  | None => None
  end.

Fixpoint percent_decode (s : string) : string :=
  match s with
  | EmptyString => EmptyString
  | String c rest =>
      if Ascii.eqb c "+"%char then String " "%char (percent_decode rest)
      else if Ascii.eqb c "%"%char then
        match rest with
        | String h (String l rest') =>
            match hex_value h, hex_value l with
            | Some a, Some b =>
                String (ascii_of_nat (Z.to_nat (16 * a + b)))
                       (percent_decode rest')
            | _, _ => String c (percent_decode rest)
            end
        | _ => String c (percent_decode rest)
        end
      else String c (percent_decode rest)
  end.

Fixpoint first_value (key : string) (pieces : list string) : option string :=
  match pieces with
  | [] => None
  | p :: more =>
      if truthy_str p then
        let '(n, v) := split_pair EmptyString p in
        if String.eqb (percent_decode n) key
        then Some (percent_decode v)
        else first_value key more
      else first_value key more
  end.

Definition URLSearchParams_get (init key : string) : option string :=
  let q := match init with String "?" rest => rest | _ => init end in
  first_value key (split_on "&"%char EmptyString q).

End Js.

(** ** The Draft Profile ([formData] of [Onboarding.jsx]) *)
Module Profile.

Record FormData := mkFormData {
  (* Background *)
  education : string;
  current_role : string;
  years_experience : Js.number;
  (* Skills *)
  tech_skills : list string;
  domain_skills : list string;
  soft_skills : list string;
  previous_projects : string;
  (* Interests *)
  excited_domains : list string;
  (* Constraints *)
  hours_per_week : Js.number;
  runway_months : option Js.number;
  location : string;
  risk_appetite : string;
  (* Goals *)
  target_roles : list string;
  (* Resources & Preferences *)
  existing_portfolio : string;
  github_url : string;
  network_strength : string;
  learning_mode : string
}.

(** The argument of [useState] for [formData]. *)
Definition initial : FormData := {|
  education := "";
  current_role := "";
  years_experience := 0;
  tech_skills := [];
  domain_skills := [];
  soft_skills := [];
  previous_projects := "";
  excited_domains := [];
  hours_per_week := 10;
  runway_months := None;
  location := "";
  risk_appetite := "medium";
  target_roles := [];
  existing_portfolio := "";
  github_url := "";
  network_strength := "moderate";
  learning_mode := "build-first"
|}.

(** The five keys [toggleArrayItem] is called with. *)
Inductive ArrayField :=
| F_tech_skills | F_domain_skills | F_soft_skills
| F_excited_domains | F_target_roles.

(** [prev[field]] *)
Definition get_array (field : ArrayField) (fd : FormData) : list string :=
  match field with
  | F_tech_skills => tech_skills fd
  | F_domain_skills => domain_skills fd
  | F_soft_skills => soft_skills fd
  | F_excited_domains => excited_domains fd
  | F_target_roles => target_roles fd
  end.

(** [{ ...prev, [field]: arr }] *)
Definition set_array (field : ArrayField) (arr : list string)
    (prev : FormData) : FormData :=
  let '(mkFormData ed cr ye ts ds ss pp xd hw rm lo ra tr ep gh ns lm) := prev in
  match field with
  | F_tech_skills => mkFormData ed cr ye arr ds ss pp xd hw rm lo ra tr ep gh ns lm
  | F_domain_skills => mkFormData ed cr ye ts arr ss pp xd hw rm lo ra tr ep gh ns lm
  | F_soft_skills => mkFormData ed cr ye ts ds arr pp xd hw rm lo ra tr ep gh ns lm
  | F_excited_domains => mkFormData ed cr ye ts ds ss pp arr hw rm lo ra tr ep gh ns lm
  | F_target_roles => mkFormData ed cr ye ts ds ss pp xd hw rm lo ra arr ep gh ns lm
  end.

(** The key/value pairs [updateField] is called with. *)
Inductive FieldUpdate :=
| U_education (v : string)
| U_current_role (v : string)
| U_years_experience (v : Js.number)
| U_previous_projects (v : string)
| U_hours_per_week (v : Js.number)
| U_runway_months (v : option Js.number)
| U_location (v : string)
| U_risk_appetite (v : string)
| U_existing_portfolio (v : string)
| U_github_url (v : string)
| U_network_strength (v : string)
| U_learning_mode (v : string).

(** [{ ...prev, [field]: value }] *)
Definition set_field (u : FieldUpdate) (prev : FormData) : FormData :=
  let '(mkFormData ed cr ye ts ds ss pp xd hw rm lo ra tr ep gh ns lm) := prev in
  match u with
  | U_education v => mkFormData v cr ye ts ds ss pp xd hw rm lo ra tr ep gh ns lm
  | U_current_role v => mkFormData ed v ye ts ds ss pp xd hw rm lo ra tr ep gh ns lm
  | U_years_experience v => mkFormData ed cr v ts ds ss pp xd hw rm lo ra tr ep gh ns lm
  | U_previous_projects v => mkFormData ed cr ye ts ds ss v xd hw rm lo ra tr ep gh ns lm
  | U_hours_per_week v => mkFormData ed cr ye ts ds ss pp xd v rm lo ra tr ep gh ns lm
  | U_runway_months v => mkFormData ed cr ye ts ds ss pp xd hw v lo ra tr ep gh ns lm
  | U_location v => mkFormData ed cr ye ts ds ss pp xd hw rm v ra tr ep gh ns lm
  | U_risk_appetite v => mkFormData ed cr ye ts ds ss pp xd hw rm lo v tr ep gh ns lm
  | U_existing_portfolio v => mkFormData ed cr ye ts ds ss pp xd hw rm lo ra tr v gh ns lm
  | U_github_url v => mkFormData ed cr ye ts ds ss pp xd hw rm lo ra tr ep v ns lm
  | U_network_strength v => mkFormData ed cr ye ts ds ss pp xd hw rm lo ra tr ep gh v lm
  | U_learning_mode v => mkFormData ed cr ye ts ds ss pp xd hw rm lo ra tr ep gh ns v
  end.

End Profile.

(** ** The world the handlers run in *)
Module Effects.
Import Profile.

(** The resolved identity returned by the two session endpoints. *)
Record Identity := mkIdentity {
  user_id : string;
  email : string;
  name : string;
  picture : option string
}.

(** Backend operations issued through the shared client. *)
Inductive Request :=
| GET_auth_me
| POST_auth_session (session_id : string)
| POST_auth_logout
| GET_profile
| POST_profile (data : FormData)
| POST_analyze (profile_id : string)
| GET_reports
| GET_report (id : string)
| DELETE_report (id : string)
| PATCH_report_milestones (id : string) (milestones_completed : list string).

(** [error.response]: HTTP status and the [data.detail] message. *)
Record ErrorResponse := mkErrorResponse {
  status : Z;
  detail : option string
}.

(** The rejection value of a client call; [response] is undefined for
    a failure without an HTTP answer. *)
Record AxiosError := mkAxiosError { response : option ErrorResponse }.

Inductive Reply (A : Type) :=
| Fulfilled (data : A)
| Rejected (error : AxiosError).
Arguments Fulfilled {A} data.
Arguments Rejected {A} error.

(** [{ id, ... }] of "save profile" and [{ report_id, ... }] of "run
    analysis". *)
Record SavedProfile := mkSavedProfile { id : string }.
Record AnalysisResult := mkAnalysisResult { report_id : string }.

(** The external backend, as an oracle typed by endpoint. *)
Record Backend := mkBackend {
  auth_me : Reply Identity;
  auth_session : string -> Reply Identity;
  auth_logout : Reply unit;
  save_profile : FormData -> Reply SavedProfile;
  analyze : string -> Reply AnalysisResult;
  update_milestones : string -> list string -> Reply unit
}.

(** Everything a handler does that can be observed, in order. *)
Inductive Event :=
| Call (r : Request)
| SetUser (u : option Identity)
| SetLoading (b : bool)
| SetIsSubmitting (b : bool)
| SetIsAnalyzing (b : bool)
| SetCompletedMilestones (ms : list string)
| ReplaceState (url : string)
| Navigate (to : string)
| AssignHref (url : string)
| ToastSuccess (msg : string)
| ToastError (msg : string)
| ConsoleError (msg : string).

(** [window.location]; [href_assigned] is a pending document load
    requested by [window.location.href = url]. *)
Record Location := mkLocation {
  pathname : string;
  hash : string;
  href_assigned : option string
}.

(** State of [AuthProvider]. *)
Record AuthState := mkAuthState {
  user : option Identity;
  loading : bool
}.

(** State of [Onboarding]. *)
Record WizardState := mkWizardState {
  currentStep : Z;
  isSubmitting : bool;
  isAnalyzing : bool;
  formData : FormData
}.

Record World := mkWorld {
  location : Location;
  auth : AuthState;
  wizard : WizardState;
  completedMilestones : list string;   (* state of [Results] *)
  log : list Event
}.

(** *** The monad: state, and rejection of an awaited promise *)

Inductive Outcome (A : Type) :=
| Ret (a : A)
| Throw (error : AxiosError).
Arguments Ret {A} a.
Arguments Throw {A} error.

Definition M (A : Type) := World -> Outcome A * World.

Definition ret {A} (a : A) : M A := fun w => (Ret a, w).

Definition throw {A} (e : AxiosError) : M A := fun w => (Throw e, w).

Definition bind {A B} (m : M A) (k : A -> M B) : M B :=
  fun w =>
    match m w with
    | (Ret a, w') => k a w'
    | (Throw e, w') => (Throw e, w')
    end.

(** [try { body } catch (error) { handler }] *)
Definition try_catch {A} (body : M A) (handler : AxiosError -> M A) : M A :=
  fun w =>
    match body w with
    | (Ret a, w') => (Ret a, w')
    | (Throw e, w') => handler e w'
    end.

(** [try { body } finally { fin }]: [fin] runs on both exits and a
    rejection of [fin] replaces the outcome. *)
Definition try_finally {A} (body : M A) (fin : M unit) : M A :=
  fun w =>
    let '(o, w') := body w in
    match fin w' with
    | (Ret _, w'') => (o, w'')
    | (Throw e, w'') => (Throw e, w'')
    end.

Definition try_catch_finally {A} (body : M A) (handler : AxiosError -> M A)
    (fin : M unit) : M A :=
  try_finally (try_catch body handler) fin.

Definition get_world : M World := fun w => (Ret w, w).

Definition emit (e : Event) : M unit :=
  fun w => (Ret tt, mkWorld (location w) (auth w) (wizard w)
                      (completedMilestones w) (log w ++ [e])).

Definition put_location (l : Location) : M unit :=
  fun w => (Ret tt, mkWorld l (auth w) (wizard w) (completedMilestones w) (log w)).

Definition put_auth (a : AuthState) : M unit :=
  fun w => (Ret tt, mkWorld (location w) a (wizard w) (completedMilestones w) (log w)).

Definition put_wizard (z : WizardState) : M unit :=
  fun w => (Ret tt, mkWorld (location w) (auth w) z (completedMilestones w) (log w)).

Definition put_completedMilestones (ms : list string) : M unit :=
  fun w => (Ret tt, mkWorld (location w) (auth w) (wizard w) ms (log w)).

End Effects.

Declare Scope js_scope.
Delimit Scope js_scope with js.
Notation "x <- c1 ;; c2" := (Effects.bind c1 (fun x => c2))
  (at level 61, c1 at next level, right associativity) : js_scope.
Notation "c1 ;; c2" := (Effects.bind c1 (fun _ => c2))
  (at level 61, right associativity) : js_scope.
Open Scope js_scope.

(** ** Browser, router and notification calls used by the components *)
Module Browser.
Import Effects.

(** [window.location.href = url]: requests a document load; the
    current location is unchanged until that load commits. *)
Definition assign_href (url : string) : M unit :=
  w <- get_world ;;
  put_location (mkLocation (pathname (location w)) (hash (location w)) (Some url)) ;;
  emit (AssignHref url).

(** [navigate(to)] of the router: a client-side location change. *)
Definition navigate (to : string) : M unit :=
  w <- get_world ;;
  put_location (mkLocation to "" (href_assigned (location w))) ;;
  emit (Navigate to).

(** [window.history.replaceState(null, '', window.location.pathname)] *)
Definition replaceState_pathname : M unit :=
  w <- get_world ;;
  put_location (mkLocation (pathname (location w)) ""
                           (href_assigned (location w))) ;;
  emit (ReplaceState (pathname (location w))).

Definition toast_success (msg : string) : M unit := emit (ToastSuccess msg).
Definition toast_error (msg : string) : M unit := emit (ToastError msg).
Definition console_error (msg : string) : M unit := emit (ConsoleError msg).

End Browser.

(** ** [services/api.js]: the shared client *)
Module Api.
Import Effects Browser.

(** [error.response?.status === 401] *)
Definition is_unauthorized (error : AxiosError) : bool :=
  match response error with
  | Some r => status r =? 401
  | None => false
  end.

(** The rejection handler of [api.interceptors.response]. *)
Definition response_onRejected {A} (error : AxiosError) : M A :=
  w <- get_world ;;
  (if is_unauthorized error then
     if negb (String.eqb (pathname (location w)) "/")
     then assign_href "/"
     else ret tt
   else ret tt) ;;
  throw error.

(** A call through the client: the request goes out, the reply passes
    the response interceptor ([(response) => response] on success). *)
Definition request {A} (r : Request) (reply : Reply A) : M A :=
  emit (Call r) ;;
  match reply with
  | Fulfilled data => ret data
  | Rejected error => response_onRejected error
  end.

(** [api.get('/auth/me')] *)
Definition get_auth_me (bk : Backend) : M Identity :=
  request GET_auth_me (auth_me bk).

(** [api.post('/auth/session', { session_id: sessionId })] *)
Definition post_auth_session (bk : Backend) (sessionId : string) : M Identity :=
  request (POST_auth_session sessionId) (auth_session bk sessionId).

(** [api.post('/auth/logout')] *)
Definition post_auth_logout (bk : Backend) : M unit :=
  request POST_auth_logout (auth_logout bk).

(** [profileApi.saveProfile] *)
Definition saveProfile (bk : Backend) (data : Profile.FormData) : M SavedProfile :=
  request (POST_profile data) (save_profile bk data).

(** [analysisApi.runAnalysis] *)
Definition runAnalysis (bk : Backend) (profileId : string) : M AnalysisResult :=
  request (POST_analyze profileId) (analyze bk profileId).

(** [reportsApi.updateMilestones] *)
Definition updateMilestones (bk : Backend) (id : string)
    (milestones : list string) : M unit :=
  request (PATCH_report_milestones id milestones)
          (update_milestones bk id milestones).

End Api.

(** ** [context/AuthContext.jsx]: the Session Controller *)
Module AuthContext.
Import Effects Browser.

(** [useState(null)] and [useState(true)]. *)
Definition initial : AuthState := mkAuthState None true.

Definition setUser (u : option Identity) : M unit :=
  w <- get_world ;;
  put_auth (mkAuthState u (loading (auth w))) ;;
  emit (SetUser u).

Definition setLoading (b : bool) : M unit :=
  w <- get_world ;;
  put_auth (mkAuthState (user (auth w)) b) ;;
  emit (SetLoading b).

Definition checkSession (bk : Backend) : M (option Identity) :=
  try_catch_finally
    (data <- Api.get_auth_me bk ;;
     setUser (Some data) ;;
     ret (Some data))
    (fun error =>
       setUser None ;;
       ret None)
    (setLoading false).

Definition processSessionId (bk : Backend) (sessionId : string)
    : M (option Identity) :=
  try_catch_finally
    (setLoading true ;;
     data <- Api.post_auth_session bk sessionId ;;
     setUser (Some data) ;;
     replaceState_pathname ;;
     navigate "/dashboard" ;;
     ret (Some data))
    (fun error =>
       console_error "Session processing failed:" ;;
       setUser None ;;
       navigate "/" ;;
       ret None)
    (setLoading false).

(** The mount effect. *)
Definition handleAuth (bk : Backend) : M unit :=
  w <- get_world ;;
  let hash := hash (location w) in
  let otherwise := (checkSession bk ;; ret tt) in
  if (Js.truthy_str hash && Js.str_includes "session_id=" hash)%bool then
    match Js.URLSearchParams_get (Js.substring1 hash) "session_id" with
    | Some sessionId =>
        if Js.truthy_str sessionId
        then processSessionId bk sessionId ;; ret tt
        else otherwise
    | None => otherwise
    end
  else otherwise.

Definition logout (bk : Backend) : M unit :=
  try_catch_finally
    (Api.post_auth_logout bk)
    (fun error => console_error "Logout error:")
    (setUser None ;;
     navigate "/").

(** The states of the Session Controller, read off [user] and
    [loading]. *)
Inductive SessionState :=
| Bootstrapping
| Authenticated (u : Identity)
| Anonymous.

Definition session_state (a : AuthState) : SessionState :=
  if loading a then Bootstrapping
  else match user a with
       | Some u => Authenticated u
       | None => Anonymous
       end.

End AuthContext.

(** ** The application root: [ProtectedRoute] and the route table *)
Module App.
Import Effects.

Inductive PageId := Landing | Onboarding | Results | Dashboard.

(** What a route element renders to. *)
Inductive Element :=
| LoadingIndicator
| NavigateTo (to : string) (replace : bool)
| Page (p : PageId).

Definition ProtectedRoute (a : AuthState) (children : Element) : Element :=
  if loading a then LoadingIndicator
  else match user a with
       | None => NavigateTo "/" true
       | Some _ => children
       end.

Record Route := mkRoute {
  path : string;
  element : AuthState -> Element
}.

Definition AppRoutes : list Route := [
  mkRoute "/" (fun _ => Page Landing);
  mkRoute "/onboarding" (fun a => ProtectedRoute a (Page Onboarding));
  mkRoute "/results/:reportId" (fun a => ProtectedRoute a (Page Results));
  mkRoute "/dashboard" (fun a => ProtectedRoute a (Page Dashboard))
].

End App.

(** ** [pages/Onboarding.jsx]: the wizard *)
Module Onboarding.
Import Profile Effects Browser.

Definition STEPS : list (string * string) := [
  ("background", "Background");
  ("skills", "Skills");
  ("interests", "Interests");
  ("constraints", "Constraints");
  ("goals", "Goals");
  ("preferences", "Preferences")
].

Definition STEPS_length : Z := Z.of_nat (List.length STEPS).

(** [useState(0)], [useState(false)], [useState(false)], [useState({..})]. *)
Definition initial : WizardState :=
  mkWizardState 0 false false Profile.initial.

(** *** State setters *)

Definition setFormData (f : FormData -> FormData) (z : WizardState) : WizardState :=
  mkWizardState (currentStep z) (isSubmitting z) (isAnalyzing z) (f (formData z)).

Definition setCurrentStep (f : Z -> Z) (z : WizardState) : WizardState :=
  mkWizardState (f (currentStep z)) (isSubmitting z) (isAnalyzing z) (formData z).

(** The updater passed to [setFormData] by [updateField]. *)
Definition updateField (u : FieldUpdate) (prev : FormData) : FormData :=
  set_field u prev.

(** The updater passed to [setFormData] by [toggleArrayItem]. *)
Definition toggleArrayItem (field : ArrayField) (item : string)
    (prev : FormData) : FormData :=
  let arr := get_array field prev in
  if Js.includes item arr
  then set_array field (Js.filter_neq item arr) prev
  else set_array field (arr ++ [item]) prev.

(** [onChange] of the years-of-experience input, on [e.target.value]. *)
Definition onChange_years_experience (value : string) (prev : FormData) : FormData :=
  updateField (U_years_experience (Js.parseInt_or value 0)) prev.

(** [onChange] of the hours-per-week input. *)
Definition onChange_hours_per_week (value : string) (prev : FormData) : FormData :=
  updateField (U_hours_per_week (Js.parseInt_or value 1)) prev.

(** What the user can do to the draft: click a badge or edit a field. *)
Inductive Edit :=
| Toggle (field : ArrayField) (item : string)
| Update (u : FieldUpdate).

Definition apply_edit (fd : FormData) (e : Edit) : FormData :=
  match e with
  | Toggle field item => toggleArrayItem field item fd
  | Update u => updateField u fd
  end.

Definition apply_edits (es : list Edit) (fd : FormData) : FormData :=
  fold_left apply_edit es fd.

(** *** The gate *)

Definition canProceed (z : WizardState) : bool :=
  let formData := formData z in
  match currentStep z with
  | 0 => Js.truthy_str (education formData) && Js.truthy_str (current_role formData)
  | 1 => (0 <? Z.of_nat (List.length (tech_skills formData)))
         || (0 <? Z.of_nat (List.length (domain_skills formData)))
  | 2 => 0 <? Z.of_nat (List.length (excited_domains formData))
  | 3 => 0 <? hours_per_week formData
  | 4 => 0 <? Z.of_nat (List.length (target_roles formData))
  | 5 => true
  | _ => false
  end.

(** *** What the component renders: the two navigation buttons *)

Inductive ForwardControl :=
| NextButton (disabled : bool)
| SubmitButton (disabled : bool).

Inductive View :=
| AnalyzingScreen
| WizardForm (previous_disabled : bool) (forward : ForwardControl).

Definition render (z : WizardState) : View :=
  if isAnalyzing z then AnalyzingScreen
  else
    WizardForm (currentStep z =? 0)
      (if currentStep z <? STEPS_length - 1
       then NextButton (negb (canProceed z))
       else SubmitButton (negb (canProceed z) || isSubmitting z)).

(** [onClick] of the two step buttons. *)
Definition onClick_previous (z : WizardState) : WizardState :=
  setCurrentStep (fun prev => prev - 1) z.

Definition onClick_next (z : WizardState) : WizardState :=
  setCurrentStep (fun prev => prev + 1) z.

(** *** Final submission *)

Definition setIsSubmitting (b : bool) : M unit :=
  w <- get_world ;;
  put_wizard (mkWizardState (currentStep (wizard w)) b
                            (isAnalyzing (wizard w)) (formData (wizard w))) ;;
  emit (SetIsSubmitting b).

Definition setIsAnalyzing (b : bool) : M unit :=
  w <- get_world ;;
  put_wizard (mkWizardState (currentStep (wizard w)) (isSubmitting (wizard w))
                            b (formData (wizard w))) ;;
  emit (SetIsAnalyzing b).

(** [error.response?.data?.detail || 'Something went wrong'] *)
Definition error_notice (error : AxiosError) : string :=
  match response error with
  | Some r =>
      match detail r with
      | Some d => if Js.truthy_str d then d else "Something went wrong"
      | None => "Something went wrong"
      end
  | None => "Something went wrong"
  end.

Definition handleSubmit (bk : Backend) : M unit :=
  w <- get_world ;;
  let formData := formData (wizard w) in
  setIsSubmitting true ;;
  try_catch_finally
    (profileResponse <- Api.saveProfile bk formData ;;
     toast_success "Profile saved!" ;;
     setIsAnalyzing true ;;
     analysisResponse <- Api.runAnalysis bk (id profileResponse) ;;
     toast_success "Analysis complete!" ;;
     navigate ("/results/" ++ report_id analysisResponse))
    (fun error =>
       console_error "Error:" ;;
       toast_error (error_notice error))
    (setIsSubmitting false ;;
     setIsAnalyzing false).

End Onboarding.

(** ** [pages/Results.jsx]: the milestone checklist *)
Module Results.
Import Effects Browser.

Definition setCompletedMilestones (ms : list string) : M unit :=
  put_completedMilestones ms ;;
  emit (SetCompletedMilestones ms).

(** The value of the local constant [newMilestones]. *)
Definition newMilestones (completedMilestones : list string) (milestone : string)
    : list string :=
  if Js.includes milestone completedMilestones
  then Js.filter_neq milestone completedMilestones
  else (completedMilestones ++ [milestone])%list.

Definition toggleMilestone (bk : Backend) (reportId milestone : string) : M unit :=
  w <- get_world ;;
  let newMilestones := newMilestones (completedMilestones w) milestone in
  setCompletedMilestones newMilestones ;;
  try_catch
    (Api.updateMilestones bk reportId newMilestones)
    (fun error => toast_error "Failed to update milestone").

End Results.


(** ** Loading a document *)
Module Document.
Import Effects.

(** What a pending [window.location.href] assignment leads to: the
    document at that URL is loaded and every component starts from its
    [useState] initial values.  The log is kept, for observation. *)
Definition page_load (w : World) : World :=
  match href_assigned (location w) with
  | Some url =>
      mkWorld (mkLocation url "" None) AuthContext.initial Onboarding.initial
              [] (log w)
  | None => w
  end.

End Document.

(** ** Fragments that carry a one-time session token *)
Module SessionSpec.

(** The fragment mentions [session_id=] and its urlencoded parse gives a
    non-empty value for the key [session_id]. *)
Definition carries_session_id (hash token : string) : Prop :=
  Js.str_includes "session_id=" hash = true /\
  Js.URLSearchParams_get (Js.substring1 hash) "session_id" = Some token /\
  token <> "".

(** A token without the characters the urlencoded syntax gives a meaning
    to. *)
Fixpoint plain_token (token : string) : bool :=
  match token with
  | EmptyString => true
  | String c rest =>
      negb (Ascii.eqb c "&"%char) && negb (Ascii.eqb c "+"%char)
      && negb (Ascii.eqb c "%"%char) && plain_token rest
  end.

End SessionSpec.

(** ** The advancement gates as the specification words them

    A second definition, written from the table of the specification and
    not from the code, to compare [Onboarding.canProceed] with. *)
Module WizardSpec.
Import Profile.

Inductive Step :=
| Background | Skills | Interests | Constraints | Goals | Preferences.

(** The steps are ordered and zero-indexed. *)
Definition step_index (s : Step) : Z :=
  match s with
  | Background => 0
  | Skills => 1
  | Interests => 2
  | Constraints => 3
  | Goals => 4
  | Preferences => 5
  end.

Definition gate (s : Step) (fd : FormData) : Prop :=
  match s with
  | Background => education fd <> "" /\ current_role fd <> ""
  | Skills => tech_skills fd <> [] \/ domain_skills fd <> []
  | Interests => excited_domains fd <> []
  | Constraints => hours_per_week fd > 0
  | Goals => target_roles fd <> []
  | Preferences => True
  end.

Definition is_last (s : Step) : bool :=
  match s with Preferences => true | _ => false end.

(** Whether the forward control of a rendered wizard can be clicked;
    [None] when no such control is on screen. *)
Definition forward_enabled (v : Onboarding.View) : option bool :=
  match v with
  | Onboarding.AnalyzingScreen => None
  | Onboarding.WizardForm _ (Onboarding.NextButton disabled) => Some (negb disabled)
  | Onboarding.WizardForm _ (Onboarding.SubmitButton disabled) => Some (negb disabled)
  end.

End WizardSpec.

(** ** Reading the effect log *)
Module Trace.
Import Effects.

(** The events a computation appends to the log of [w]. *)
Definition events_of {A} (m : M A) (w : World) : list Event :=
  skipn (List.length (log w)) (log (snd (m w))).

(** The backend calls among some events, in order. *)
Fixpoint calls (es : list Event) : list Request :=
  match es with
  | [] => []
  | Call r :: rest => r :: calls rest
  | _ :: rest => calls rest
  end.

(** What the response interceptor adds to the log when a call made from
    [w] is rejected with [error]. *)
Definition interceptor_events (w : World) (error : AxiosError) : list Event :=
  if (Api.is_unauthorized error
      && negb (String.eqb (pathname (location w)) "/"))%bool
  then [AssignHref "/"]
  else [].

(** [a] occurs in [es] strictly before an occurrence of [b]. *)
Definition precedes (a b : Event) (es : list Event) : Prop :=
  exists l1 l2 l3, es = (l1 ++ a :: l2 ++ b :: l3)%list.

End Trace.

(** ** Sample identities, failures, backends and worlds *)
Module Samples.
Import Profile Effects.

Definition alice : Identity :=
  mkIdentity "user_1" "alice@example.com" "Alice" None.

(** An HTTP 401 answer. *)
Definition unauthorized : AxiosError :=
  mkAxiosError (Some (mkErrorResponse 401 (Some "Not authenticated"))).

(** An HTTP 500 answer without a detail message. *)
Definition server_error : AxiosError :=
  mkAxiosError (Some (mkErrorResponse 500 None)).

(** A backend on which every operation succeeds. *)
Definition backend_up : Backend :=
  mkBackend (Fulfilled alice)
            (fun _ => Fulfilled alice)
            (Fulfilled tt)
            (fun _ => Fulfilled (mkSavedProfile "p1"))
            (fun _ => Fulfilled (mkAnalysisResult "r1"))
            (fun _ _ => Fulfilled tt).

(** A backend on which every operation fails with [e]. *)
Definition backend_failing (e : AxiosError) : Backend :=
  mkBackend (Rejected e)
            (fun _ => Rejected e)
            (Rejected e)
            (fun _ => Rejected e)
            (fun _ => Rejected e)
            (fun _ _ => Rejected e).

(** A backend that answers 401 to every report update and still resolves
    the session. *)
Definition backend_reports_unauthorized : Backend :=
  mkBackend (Fulfilled alice)
            (fun _ => Fulfilled alice)
            (Fulfilled tt)
            (fun _ => Fulfilled (mkSavedProfile "p1"))
            (fun _ => Fulfilled (mkAnalysisResult "r1"))
            (fun _ _ => Rejected unauthorized).

(** A freshly loaded document at [path] with fragment [fragment]. *)
Definition fresh_world (path fragment : string) : World :=
  mkWorld (mkLocation path fragment None)
          AuthContext.initial Onboarding.initial [] [].

(** A signed-in session at [path], the wizard in state [z]. *)
Definition signed_in_world (path : string) (z : WizardState)
    (milestones : list string) : World :=
  mkWorld (mkLocation path "" None)
          (mkAuthState (Some alice) false) z milestones [].

(** The wizard on its last step. *)
Definition last_step : WizardState :=
  mkWizardState 5 false false Profile.initial.

End Samples.

From Stdlib Require DecimalString DecimalNat.

(** ** [encodeURIComponent] and decimal rendering of indices *)
Module Uri.

(** The characters [encodeURIComponent] leaves as they are: letters,
    digits and [- _ . ! ~ * ' ( )]. *)
Definition is_unreserved (c : ascii) : bool :=
  let n := Z.of_nat (nat_of_ascii c) in
  ((65 <=? n) && (n <=? 90)) || ((97 <=? n) && (n <=? 122))
  || ((48 <=? n) && (n <=? 57))
  || Ascii.eqb c "-"%char || Ascii.eqb c "_"%char || Ascii.eqb c "."%char
  || Ascii.eqb c "!"%char || Ascii.eqb c "~"%char || Ascii.eqb c "*"%char
  || Ascii.eqb c "'"%char || Ascii.eqb c "("%char || Ascii.eqb c ")"%char.

(** An upper-case hexadecimal digit. *)
Definition hex_digit (n : nat) : ascii :=
  if Nat.ltb n 10 then ascii_of_nat (48 + n) else ascii_of_nat (55 + n).

(** Every other byte of the (UTF-8) text becomes [%XX]. *)
Fixpoint encodeURIComponent (s : string) : string :=
  match s with
  | EmptyString => EmptyString
  | String c rest =>
      if is_unreserved c then String c (encodeURIComponent rest)
      else
        String "%"%char
          (String (hex_digit (Nat.div (nat_of_ascii c) 16))
             (String (hex_digit (Nat.modulo (nat_of_ascii c) 16))
                (encodeURIComponent rest)))
  end.

(** The check that one character, once encoded, is read back by the
    urlencoded parser and brings no separator with it. *)
Definition encode_char_ok (c : ascii) : bool :=
  let hi := hex_digit (Nat.div (nat_of_ascii c) 16) in
  let lo := hex_digit (Nat.modulo (nat_of_ascii c) 16) in
  if is_unreserved c then
    negb (Ascii.eqb c "+"%char) && negb (Ascii.eqb c "%"%char)
    && negb (Ascii.eqb c "&"%char) && negb (Ascii.eqb c "="%char)
  else
    match Js.hex_value hi, Js.hex_value lo with
    | Some a, Some b =>
        Ascii.eqb (ascii_of_nat (Z.to_nat (16 * a + b))) c
        && negb (Ascii.eqb hi "&"%char) && negb (Ascii.eqb lo "&"%char)
        && negb (Ascii.eqb hi "="%char) && negb (Ascii.eqb lo "="%char)
    | _, _ => false
    end.

(** [`${n}`] for a non-negative integer index. *)
Definition string_of_index (n : nat) : string :=
  DecimalString.NilEmpty.string_of_uint (Nat.to_uint n).

End Uri.

(** ** [context/AuthContext.jsx]: the sign-in redirect *)
Module Login.
Import Effects Browser.

Definition auth_endpoint : string := "https://auth.emergentagent.com/?redirect=".

(** [login]; [origin] is [window.location.origin]. *)
Definition login (origin : string) : M unit :=
  let redirectUrl := (origin ++ "/dashboard")%string in
  assign_href (auth_endpoint ++ Uri.encodeURIComponent redirectUrl).

End Login.

(** ** The landing page: its redirect effect and its loading screen *)
Module Landing.
Import Effects Browser.

(** The effect [if (user && !loading) navigate('/dashboard')]. *)
Definition redirect_effect : M unit :=
  w <- get_world ;;
  match user (auth w) with
  | Some _ => if negb (loading (auth w)) then navigate "/dashboard" else ret tt
  | None => ret tt
  end.

Inductive View := LoadingScreen | LandingContent.

Definition render (a : AuthState) : View :=
  if loading a then LoadingScreen else LandingContent.

End Landing.

(** ** The wizard as the user drives it *)
Module WizardUse.
Import Effects Onboarding.

(** A field edit or a click on one of the two step buttons. *)
Inductive Action :=
| DoEdit (e : Edit)
| ClickPrevious
| ClickNext.

(** A click reaches its handler only when the button is on screen and not
    disabled. *)
Definition act (z : WizardState) (a : Action) : WizardState :=
  match a with
  | DoEdit e => setFormData (fun prev => apply_edit prev e) z
  | ClickPrevious =>
      match render z with
      | WizardForm false _ => onClick_previous z
      | _ => z
      end
  | ClickNext =>
      match render z with
      | WizardForm _ (NextButton false) => onClick_next z
      | _ => z
      end
  end.

Definition run (actions : list Action) (z : WizardState) : WizardState :=
  fold_left act actions z.

End WizardUse.

(** ** The dashboard: report list, score badge, deletion *)
Module Dashboard.
Import Effects Browser.

(** An entry of the report list, as the page reads it. *)
Record ReportSummary := mkReportSummary {
  id : string;
  top_niche : string;
  created_at : string;
  fit_score : Js.number
}.

(** State of [Dashboard]. *)
Record State := mkState {
  reports : list ReportSummary;
  hasProfile : bool;
  loading : bool;
  deleteId : option string
}.

(** [useState([])], [useState(false)], [useState(true)], [useState(null)]. *)
Definition initial : State := mkState [] false true None.

Definition setReports (rs : list ReportSummary) (st : State) : State :=
  mkState rs (hasProfile st) (loading st) (deleteId st).

Definition setDeleteId (d : option string) (st : State) : State :=
  mkState (reports st) (hasProfile st) (loading st) d.

(** [reportsApi.deleteReport]; the reply of the backend is an argument. *)
Definition deleteReport (reply : string -> Reply unit) (id : string) : M unit :=
  Api.request (DELETE_report id) (reply id).

(** [handleDelete], started from the rendered state [st]; the result is
    the component state it leaves. *)
Definition handleDelete (reply : string -> Reply unit) (id0 : string)
    (st : State) : M State :=
  st' <- try_catch
           (deleteReport reply id0 ;;
            let st1 :=
              setReports
                (filter (fun r => negb (String.eqb (id r) id0)) (reports st)) st in
            toast_success "Report deleted" ;;
            ret st1)
           (fun error =>
              toast_error "Failed to delete report" ;;
              ret st) ;;
  ret (setDeleteId None st').

(** [open={!!deleteId}] of the confirmation dialog. *)
Definition dialog_open (st : State) : bool :=
  match deleteId st with
  | Some d => Js.truthy_str d
  | None => false
  end.

Definition getScoreColor (score : Js.number) : string :=
  if 75 <=? score then "bg-green-100 text-green-700"
  else if 50 <=? score then "bg-amber-100 text-amber-700"
  else "bg-red-100 text-red-700".

End Dashboard.

(** ** More of [pages/Results.jsx]: loading, score badge, checklist keys *)
Module ResultsView.
Import Effects Browser.

(** What the page reads of a loaded report besides its content. *)
Record Report := mkReport {
  report_id : string;
  milestones_completed : option (list string)
}.

(** State of [Results] next to [completedMilestones]. *)
Record State := mkState {
  report : option Report;
  loading : bool
}.

(** [useState(null)] and [useState(true)]. *)
Definition initial : State := mkState None true.

(** [fetchReport]; the handler of the rejection does not throw, so the
    [finally] block is the last step on both paths. *)
Definition fetchReport (reply : string -> Reply Report) (reportId : string)
    (st : State) : M State :=
  st' <- try_catch
           (data <- Api.request (GET_report reportId) (reply reportId) ;;
            Results.setCompletedMilestones
              (match milestones_completed data with
               | Some ms => ms
               | None => []
               end) ;;
            ret (mkState (Some data) (loading st)))
           (fun error =>
              toast_error "Failed to load report" ;;
              navigate "/dashboard" ;;
              ret st) ;;
  ret (mkState (report st') false).

Definition getScoreColor (score : Js.number) : string :=
  if 75 <=? score then "score-high"
  else if 50 <=? score then "score-medium"
  else "score-low".

(** The key [`${phaseIndex}-${i}`] of an action's checkbox. *)
Definition milestone_key (phaseIndex i : nat) : string :=
  (Uri.string_of_index phaseIndex ++ "-" ++ Uri.string_of_index i)%string.

(** [checked] of the checkbox. *)
Definition checked (completedMilestones : list string) (phaseIndex i : nat) : bool :=
  Js.includes (milestone_key phaseIndex i) completedMilestones.

End ResultsView.

(* ================================================================== *)
(** * Part II: properties                                              *)
(* ================================================================== *)

(** ** Arrays of labels *)
Section Arrays.

Lemma includes_In (item : string) (arr : list string) :
  Js.includes item arr = true <-> In item arr.
Proof.
  unfold Js.includes. rewrite existsb_exists. split.
  - intros [x [Hx Heq]]. apply String.eqb_eq in Heq. now subst.
  - intros H. exists item. split; [assumption | apply String.eqb_refl].
Qed.

Lemma includes_false_not_In (item : string) (arr : list string) :
  Js.includes item arr = false <-> ~ In item arr.
Proof.
  rewrite <- includes_In. destruct (Js.includes item arr); split; congruence.
Qed.

Lemma includes_app (x : string) (a b : list string) :
  Js.includes x (a ++ b) = Js.includes x a || Js.includes x b.
Proof. unfold Js.includes. apply existsb_app. Qed.

Lemma includes_filter_neq (x item : string) (arr : list string) :
  Js.includes x (Js.filter_neq item arr) =
  if String.eqb x item then false else Js.includes x arr.
Proof.
  unfold Js.includes, Js.filter_neq.
  induction arr as [|a arr IH]; simpl.
  - now destruct (String.eqb x item).
  - destruct (String.eqb a item) eqn:Ea; simpl.
    + rewrite IH. apply String.eqb_eq in Ea. subst a.
      destruct (String.eqb x item); reflexivity.
    + rewrite IH. destruct (String.eqb x item) eqn:Ex; [|reflexivity].
      apply String.eqb_eq in Ex. subst x. now rewrite String.eqb_sym, Ea.
Qed.

Lemma filter_neq_absent (item : string) (arr : list string) :
  Js.includes item arr = false -> Js.filter_neq item arr = arr.
Proof.
  unfold Js.includes, Js.filter_neq.
  induction arr as [|a arr IH]; simpl; [reflexivity|].
  intros H. apply orb_false_iff in H. destruct H as [H1 H2].
  rewrite String.eqb_sym, H1. simpl. now rewrite IH.
Qed.

Lemma filter_neq_app_item (item : string) (arr : list string) :
  Js.filter_neq item (arr ++ [item]) = Js.filter_neq item arr.
Proof.
  unfold Js.filter_neq. rewrite filter_app. simpl.
  rewrite String.eqb_refl. simpl. apply app_nil_r.
Qed.

Lemma count_filter_neq (item : string) (arr : list string) :
  count_occ string_dec (Js.filter_neq item arr) item = 0%nat.
Proof.
  apply count_occ_not_In. unfold Js.filter_neq. rewrite filter_In.
  intros [_ H]. now rewrite String.eqb_refl in H.
Qed.

Lemma NoDup_filter_neq (item : string) (arr : list string) :
  NoDup arr -> NoDup (Js.filter_neq item arr).
Proof. apply NoDup_filter. Qed.

Lemma NoDup_snoc (item : string) (arr : list string) :
  NoDup arr -> ~ In item arr -> NoDup (arr ++ [item]).
Proof.
  intros Hnd Hni. apply NoDup_app. repeat split.
  - assumption.
  - constructor; [intros [] | constructor].
  - intros a Ha [Hb | []]. subst. contradiction.
Qed.

Lemma length_pos_nonempty {A} (l : list A) :
  (0 <? Z.of_nat (List.length l)) = true <-> l <> [].
Proof.
  destruct l; simpl; split; intro H; try congruence.
  - discriminate.
  - reflexivity.
Qed.

End Arrays.

(** ** The Draft Profile under [toggleArrayItem] and [updateField] *)
Section DraftProfile.
Import Profile Effects Onboarding.

Lemma get_set_array_same (field : ArrayField) (arr : list string) (fd : FormData) :
  get_array field (set_array field arr fd) = arr.
Proof. destruct fd, field; reflexivity. Qed.

Lemma get_set_array_other (f g : ArrayField) (arr : list string) (fd : FormData) :
  f <> g -> get_array f (set_array g arr fd) = get_array f fd.
Proof. destruct fd, f, g; intros H; try reflexivity; congruence. Qed.

Lemma set_array_twice (field : ArrayField) (a b : list string) (fd : FormData) :
  set_array field a (set_array field b fd) = set_array field a fd.
Proof. destruct fd, field; reflexivity. Qed.

Lemma set_array_get (field : ArrayField) (fd : FormData) :
  set_array field (get_array field fd) fd = fd.
Proof. destruct fd, field; reflexivity. Qed.

Lemma get_array_set_field (f : ArrayField) (u : FieldUpdate) (fd : FormData) :
  get_array f (set_field u fd) = get_array f fd.
Proof. destruct fd, f, u; reflexivity. Qed.

Lemma ArrayField_eq_dec (f g : ArrayField) : {f = g} + {f <> g}.
Proof. decide equality. Defined.

(** The array a toggle leaves in its field. *)
Lemma toggle_get_same (field : ArrayField) (item : string) (fd : FormData) :
  get_array field (toggleArrayItem field item fd) =
  if Js.includes item (get_array field fd)
  then Js.filter_neq item (get_array field fd)
  else (get_array field fd ++ [item])%list.
Proof.
  unfold toggleArrayItem.
  destruct (Js.includes item (get_array field fd)); apply get_set_array_same.
Qed.

Lemma toggle_get_other (f g : ArrayField) (item : string) (fd : FormData) :
  f <> g -> get_array f (toggleArrayItem g item fd) = get_array f fd.
Proof.
  intros H. unfold toggleArrayItem.
  destruct (Js.includes item (get_array g fd)); now apply get_set_array_other.
Qed.

(** A toggle writes its own field only. *)
Lemma toggle_frame (field : ArrayField) (item : string) (fd : FormData) :
  set_array field (get_array field fd) (toggleArrayItem field item fd) = fd.
Proof.
  unfold toggleArrayItem.
  destruct (Js.includes item (get_array field fd));
    rewrite set_array_twice; apply set_array_get.
Qed.

(** Membership after one toggle: flipped for the item, kept for the rest. *)
Lemma toggle_flips (field : ArrayField) (item x : string) (fd : FormData) :
  Js.includes x (get_array field (toggleArrayItem field item fd)) =
  if String.eqb x item
  then negb (Js.includes item (get_array field fd))
  else Js.includes x (get_array field fd).
Proof.
  rewrite toggle_get_same.
  destruct (Js.includes item (get_array field fd)) eqn:E.
  - rewrite includes_filter_neq. now destruct (String.eqb x item).
  - rewrite includes_app. simpl. rewrite orb_false_r.
    destruct (String.eqb x item) eqn:Ex.
    + apply String.eqb_eq in Ex. subst. rewrite E. reflexivity.
    + apply orb_false_r.
Qed.

(** Selecting an unselected item and deselecting it again gives back the
    very same draft. *)
Lemma toggle_twice_absent (field : ArrayField) (item : string) (fd : FormData) :
  Js.includes item (get_array field fd) = false ->
  toggleArrayItem field item (toggleArrayItem field item fd) = fd.
Proof.
  intros H. unfold toggleArrayItem at 1.
  rewrite (toggle_flips field item item fd), String.eqb_refl, H. simpl.
  rewrite toggle_get_same, H, filter_neq_app_item, filter_neq_absent by assumption.
  unfold toggleArrayItem. rewrite H, set_array_twice. apply set_array_get.
Qed.

Lemma toggle_keeps_NoDup (f g : ArrayField) (item : string) (fd : FormData) :
  NoDup (get_array f fd) -> NoDup (get_array f (toggleArrayItem g item fd)).
Proof.
  intros H. destruct (ArrayField_eq_dec f g) as [->|Hne].
  - rewrite toggle_get_same.
    destruct (Js.includes item (get_array g fd)) eqn:E.
    + now apply NoDup_filter_neq.
    + apply NoDup_snoc; [assumption | now apply includes_false_not_In].
  - now rewrite toggle_get_other.
Qed.

Lemma apply_edit_keeps_NoDup (f : ArrayField) (e : Edit) (fd : FormData) :
  NoDup (get_array f fd) -> NoDup (get_array f (apply_edit fd e)).
Proof.
  destruct e as [g item | u]; simpl; intros H.
  - now apply toggle_keeps_NoDup.
  - unfold updateField. now rewrite get_array_set_field.
Qed.

Lemma apply_edits_keep_NoDup (f : ArrayField) (es : list Edit) :
  forall fd, NoDup (get_array f fd) -> NoDup (get_array f (apply_edits es fd)).
Proof.
  unfold apply_edits.
  induction es as [|e es IH]; simpl; intros fd H; [assumption|].
  apply IH. now apply apply_edit_keeps_NoDup.
Qed.

Lemma initial_NoDup (f : ArrayField) : NoDup (get_array f Profile.initial).
Proof. destruct f; constructor. Qed.

(** The gate reads an array through its emptiness only. *)
Lemma canProceed_membership (z : WizardState) (fd1 fd2 : FormData) :
  (forall f x, Js.includes x (get_array f fd1) = Js.includes x (get_array f fd2)) ->
  set_array F_tech_skills [] (set_array F_domain_skills []
    (set_array F_soft_skills [] (set_array F_excited_domains []
      (set_array F_target_roles [] fd1)))) =
  set_array F_tech_skills [] (set_array F_domain_skills []
    (set_array F_soft_skills [] (set_array F_excited_domains []
      (set_array F_target_roles [] fd2)))) ->
  canProceed (setFormData (fun _ => fd1) z) = canProceed (setFormData (fun _ => fd2) z).
Proof.
  intros Hm Hs.
  assert (Hlen : forall f,
    (0 <? Z.of_nat (List.length (get_array f fd1))) =
    (0 <? Z.of_nat (List.length (get_array f fd2)))).
  { intros f. specialize (Hm f).
    destruct (get_array f fd1) as [|a l1], (get_array f fd2) as [|b l2];
      try reflexivity.
    - specialize (Hm b). simpl in Hm. now rewrite String.eqb_refl in Hm.
    - specialize (Hm a). simpl in Hm. now rewrite String.eqb_refl in Hm. }
  pose proof (Hlen F_tech_skills) as H1. pose proof (Hlen F_domain_skills) as H2.
  pose proof (Hlen F_excited_domains) as H3. pose proof (Hlen F_target_roles) as H4.
  destruct fd1, fd2. simpl in *. injection Hs as -> -> -> -> -> -> -> -> -> -> -> ->.
  unfold canProceed, setFormData. simpl.
  rewrite H1, H2, H3, H4. reflexivity.
Qed.

End DraftProfile.

(** ** Selection toggles *)
Section Toggles.
Import Profile Effects Onboarding.

Lemma scalars_set_array (field : ArrayField) (arr : list string) (fd : FormData) :
  set_array F_tech_skills [] (set_array F_domain_skills []
    (set_array F_soft_skills [] (set_array F_excited_domains []
      (set_array F_target_roles [] (set_array field arr fd))))) =
  set_array F_tech_skills [] (set_array F_domain_skills []
    (set_array F_soft_skills [] (set_array F_excited_domains []
      (set_array F_target_roles [] fd)))).
Proof. destruct fd, field; reflexivity. Qed.

Lemma set_array_toggle (field : ArrayField) (arr : list string) (item : string)
    (fd : FormData) :
  set_array field arr (toggleArrayItem field item fd) = set_array field arr fd.
Proof.
  unfold toggleArrayItem.
  destruct (Js.includes item (get_array field fd)); apply set_array_twice.
Qed.

Lemma toggle_twice_membership (field f : ArrayField) (item x : string) (fd : FormData) :
  Js.includes x (get_array f (toggleArrayItem field item (toggleArrayItem field item fd))) =
  Js.includes x (get_array f fd).
Proof.
  destruct (ArrayField_eq_dec f field) as [->|Hne].
  - rewrite !toggle_flips. destruct (String.eqb x item) eqn:Ex.
    + apply String.eqb_eq in Ex. subst x. rewrite String.eqb_refl. apply negb_involutive.
    + reflexivity.
  - now rewrite !toggle_get_other.
Qed.

(** C6: applying the toggle twice to an item of a selectable field returns
    the field to its prior selection.  One toggle flips the membership of
    the item and of nothing else; two toggles leave every label's
    membership, every other field and the step gates as they were; and
    when the item was unselected at first (select, then deselect) the
    draft is literally the same again. *)
Theorem toggle_twice_restores_selection :
  forall (fd : FormData) (field : ArrayField) (item : string),
    let once := toggleArrayItem field item fd in
    let twice := toggleArrayItem field item once in
    (forall x, Js.includes x (get_array field once) =
               if String.eqb x item
               then negb (Js.includes item (get_array field fd))
               else Js.includes x (get_array field fd)) /\
    (forall f x, Js.includes x (get_array f twice) = Js.includes x (get_array f fd)) /\
    set_array field (get_array field fd) twice = fd /\
    (forall z, canProceed (setFormData (fun _ => twice) z) =
               canProceed (setFormData (fun _ => fd) z)) /\
    (Js.includes item (get_array field fd) = false -> twice = fd).
Proof.
  intros fd field item once twice.
  assert (Hframe : set_array field (get_array field fd) twice = fd).
  { subst twice once. rewrite !set_array_toggle. apply set_array_get. }
  repeat split.
  - intros x. apply toggle_flips.
  - intros f x. apply toggle_twice_membership.
  - exact Hframe.
  - intros z. apply canProceed_membership.
    + intros f x. apply toggle_twice_membership.
    + rewrite <- (scalars_set_array field (get_array field fd) twice).
      now rewrite Hframe.
  - apply toggle_twice_absent.
Qed.

Lemma toggle_twice_restores_selection_witness :
  Js.includes "Python" (get_array F_tech_skills Profile.initial) = false /\
  toggleArrayItem F_tech_skills "Python"
    (toggleArrayItem F_tech_skills "Python" Profile.initial) = Profile.initial.
Proof.
  split; [reflexivity|].
  apply (toggle_twice_restores_selection Profile.initial F_tech_skills "Python").
  reflexivity.
Defined.

(** On a duplicate-free field, two toggles of a selected item move it to
    the end of the list: the same labels in another order. *)
Lemma toggle_twice_permutation (field : ArrayField) (item : string) (fd : FormData) :
  NoDup (get_array field fd) ->
  Permutation
    (get_array field (toggleArrayItem field item (toggleArrayItem field item fd)))
    (get_array field fd).
Proof.
  intros Hnd. apply NoDup_Permutation.
  - now do 2 apply toggle_keeps_NoDup.
  - assumption.
  - intros x. rewrite <- !includes_In. now rewrite toggle_twice_membership.
Qed.

Example toggle_twice_reorders :
  let fd := set_array F_tech_skills ["Python"; "React"] Profile.initial in
  tech_skills (toggleArrayItem F_tech_skills "Python"
                 (toggleArrayItem F_tech_skills "Python" fd)) = ["React"; "Python"].
Proof. reflexivity. Qed.

Lemma toggle_count (field : ArrayField) (item : string) (fd : FormData) :
  count_occ string_dec (get_array field (toggleArrayItem field item fd)) item =
  if Js.includes item (get_array field fd) then 0%nat else 1%nat.
Proof.
  rewrite toggle_get_same.
  destruct (Js.includes item (get_array field fd)) eqn:E.
  - apply count_filter_neq.
  - rewrite count_occ_app. simpl.
    destruct (string_dec item item) as [_|Hne]; [|congruence].
    apply includes_false_not_In in E.
    apply (count_occ_not_In string_dec) in E. rewrite E. reflexivity.
Qed.

(** C9: from the initial empty draft, whatever the user clicks and types,
    every selectable field stays duplicate-free; a toggle leaves no
    occurrence of an item that was present and exactly one of an item that
    was absent. *)
Theorem toggles_keep_fields_duplicate_free :
  (forall (es : list Edit) (f : ArrayField),
      NoDup (get_array f (apply_edits es Profile.initial))) /\
  (forall (fd : FormData) (field : ArrayField) (item : string),
      count_occ string_dec (get_array field (toggleArrayItem field item fd)) item =
      if Js.includes item (get_array field fd) then 0%nat else 1%nat).
Proof.
  split.
  - intros es f. apply apply_edits_keep_NoDup, initial_NoDup.
  - intros fd field item. apply toggle_count.
Qed.

End Toggles.

(** ** The step gates and the navigation buttons *)
Section Gates.
Import Profile Effects Onboarding WizardSpec.

Lemma truthy_str_nonempty (s : string) : Js.truthy_str s = true <-> s <> "".
Proof. destruct s; simpl; split; intro H; congruence. Qed.

(** The code's gate is the specification's, step by step. *)
Lemma canProceed_iff_gate (s : Step) (z : WizardState) :
  currentStep z = step_index s ->
  (canProceed z = true <-> gate s (formData z)).
Proof.
  intros Hs. unfold canProceed. rewrite Hs.
  destruct s; simpl.
  - rewrite andb_true_iff, !truthy_str_nonempty. reflexivity.
  - rewrite orb_true_iff, !length_pos_nonempty. reflexivity.
  - apply length_pos_nonempty.
  - rewrite Z.ltb_lt. lia.
  - apply length_pos_nonempty.
  - split; auto.
Qed.

(** Outside the six steps nothing may proceed. *)
Lemma canProceed_out_of_range (z : WizardState) :
  currentStep z < 0 \/ 5 < currentStep z -> canProceed z = false.
Proof.
  unfold canProceed. destruct (currentStep z) as [|p|p]; intros [H|H]; try lia.
  do 3 (try destruct p as [p|p|]; try reflexivity); lia.
Qed.

Lemma onClick_next_advances (z : WizardState) :
  currentStep (onClick_next z) = currentStep z + 1 /\
  formData (onClick_next z) = formData z.
Proof. split; reflexivity. Qed.

Lemma onClick_previous_retreats (z : WizardState) :
  currentStep (onClick_previous z) = currentStep z - 1 /\
  formData (onClick_previous z) = formData z.
Proof. split; reflexivity. Qed.

(** C1, as stated, fails on the last step: while a submission is in
    flight ([isSubmitting], set by [handleSubmit] before it awaits the
    save) the Preferences gate holds and the submit control is disabled. *)
Lemma submit_disabled_while_submitting :
  wizard (snd (setIsSubmitting true
                 (Samples.signed_in_world "/onboarding" Samples.last_step []))) =
    mkWizardState 5 true false Profile.initial /\
  currentStep (mkWizardState 5 true false Profile.initial) =
    step_index Preferences /\
  gate Preferences (formData (mkWizardState 5 true false Profile.initial)) /\
  forward_enabled (render (mkWizardState 5 true false Profile.initial)) =
    Some false.
Proof. repeat split. Qed.

(** C1, amended: whenever the wizard form is on screen, on each of the
    six steps the code's gate is the step's gate predicate; on the first
    five steps the control is "Next" and it is enabled exactly when the
    gate holds; on the last step the control is the submit button and it
    is enabled exactly when the gate holds and no submission is in
    flight. *)
Theorem forward_control_enabled_iff_gate :
  forall (s : Step) (z : WizardState),
    currentStep z = step_index s ->
    isAnalyzing z = false ->
    (canProceed z = true <-> gate s (formData z)) /\
    exists disabled,
      render z = WizardForm (currentStep z =? 0)
                   (if is_last s then SubmitButton disabled
                    else NextButton disabled) /\
      (disabled = false <->
       gate s (formData z) /\ (is_last s = true -> isSubmitting z = false)).
Proof.
  intros s z Hs Ha.
  pose proof (canProceed_iff_gate s z Hs) as Hg.
  split; [exact Hg|].
  unfold render. rewrite Ha, Hs.
  destruct s; simpl;
    try (eexists; split; [reflexivity|];
         rewrite negb_false_iff, Hg; simpl;
         split; [intros H; split; [exact H | discriminate] | tauto]).
  eexists; split; [reflexivity|].
  rewrite orb_false_iff, negb_false_iff, Hg. simpl. tauto.
Qed.

Lemma forward_control_enabled_iff_gate_witness :
  exists disabled,
    render Samples.last_step = WizardForm false (SubmitButton disabled) /\
    (disabled = false <-> True /\ (true = true -> false = false)).
Proof.
  exact (proj2 (forward_control_enabled_iff_gate Preferences Samples.last_step
                  eq_refl eq_refl)).
Defined.

(** C8 fails on the code: the text "-5", which the number field accepts
    from the keyboard, is parsed to -5 and stored as it is; only an
    unparsable or zero entry falls back to 0. *)
Theorem years_experience_negative_entry :
  years_experience (onChange_years_experience "-5" Profile.initial) = -5 /\
  years_experience (onChange_years_experience "" Profile.initial) = 0 /\
  years_experience (onChange_years_experience "7" Profile.initial) = 7.
Proof. repeat split. Qed.

End Gates.

(** ** Running a handler: the log only grows *)
Section Logs.
Import Effects Trace.

Lemma skipn_length_app {A} (l r : list A) : skipn (List.length l) (l ++ r) = r.
Proof. induction l as [|a l IH]; simpl; [reflexivity | exact IH]. Qed.

Lemma events_of_log {A} (m : M A) (w : World) (es : list Event) :
  log (snd (m w)) = (log w ++ es)%list -> events_of m w = es.
Proof. intros H. unfold events_of. rewrite H. apply skipn_length_app. Qed.

Lemma calls_app (a b : list Event) : calls (a ++ b) = (calls a ++ calls b)%list.
Proof.
  induction a as [|e a IH]; simpl; [reflexivity|].
  destruct e; simpl; now rewrite IH.
Qed.

Lemma calls_interceptor_events (w : World) (e : AxiosError) :
  calls (interceptor_events w e) = [].
Proof. unfold interceptor_events. now destruct (_ && _)%bool. Qed.

Lemma In_interceptor_events (w : World) (e : AxiosError) (x : Event) :
  In x (interceptor_events w e) -> x = AssignHref "/".
Proof.
  unfold interceptor_events. destruct (_ && _)%bool; simpl; [|tauto].
  intros [H|[]]. now symmetry.
Qed.

End Logs.

(** Unfolds a handler down to the primitive state transformers. *)
Ltac unfold_handler :=
  unfold Onboarding.handleSubmit, Results.toggleMilestone,
    AuthContext.checkSession, AuthContext.processSessionId, AuthContext.logout,
    Api.saveProfile, Api.runAnalysis, Api.updateMilestones,
    Api.get_auth_me, Api.post_auth_session, Api.post_auth_logout,
    Api.request, Api.response_onRejected,
    Onboarding.setIsSubmitting, Onboarding.setIsAnalyzing,
    Results.setCompletedMilestones,
    AuthContext.setUser, AuthContext.setLoading,
    Browser.assign_href, Browser.navigate, Browser.replaceState_pathname,
    Browser.toast_success, Browser.toast_error, Browser.console_error,
    Effects.try_catch_finally, Effects.try_finally, Effects.try_catch,
    Effects.bind, Effects.ret, Effects.throw, Effects.get_world, Effects.emit,
    Effects.put_location, Effects.put_auth, Effects.put_wizard,
    Effects.put_completedMilestones.

(** Brings a log built by successive [emit]s into the shape
    [log w ++ [e1; ...; en]]. *)
Ltac flatten_log := repeat rewrite <- app_assoc; cbn [app].

(** ** Final submission *)
Section Submission.
Import Profile Effects Trace Onboarding.

Lemma handleSubmit_save_rejected (bk : Backend) (w : World) (e : AxiosError) :
  save_profile bk (formData (wizard w)) = Rejected e ->
  fst (handleSubmit bk w) = Ret tt /\
  wizard (snd (handleSubmit bk w)) =
    mkWizardState (currentStep (wizard w)) false false (formData (wizard w)) /\
  log (snd (handleSubmit bk w)) =
    (log w ++
     [SetIsSubmitting true; Call (POST_profile (formData (wizard w)))] ++
     interceptor_events w e ++
     [ConsoleError "Error:"; ToastError (error_notice e);
      SetIsSubmitting false; SetIsAnalyzing false])%list.
Proof.
  intros H. destruct w as [loc au wz ms lg]. unfold interceptor_events.
  unfold_handler. cbn in *. rewrite H.
  destruct (Api.is_unauthorized e); cbn;
    [destruct (String.eqb (pathname loc) "/"); cbn|];
    flatten_log; repeat split.
Qed.

Lemma handleSubmit_analysis_rejected (bk : Backend) (w : World)
    (saved : SavedProfile) (e : AxiosError) :
  save_profile bk (formData (wizard w)) = Fulfilled saved ->
  analyze bk (id saved) = Rejected e ->
  fst (handleSubmit bk w) = Ret tt /\
  wizard (snd (handleSubmit bk w)) =
    mkWizardState (currentStep (wizard w)) false false (formData (wizard w)) /\
  log (snd (handleSubmit bk w)) =
    (log w ++
     [SetIsSubmitting true; Call (POST_profile (formData (wizard w)));
      ToastSuccess "Profile saved!"; SetIsAnalyzing true;
      Call (POST_analyze (id saved))] ++
     interceptor_events w e ++
     [ConsoleError "Error:"; ToastError (error_notice e);
      SetIsSubmitting false; SetIsAnalyzing false])%list.
Proof.
  intros H1 H2. destruct w as [loc au wz ms lg]. unfold interceptor_events.
  unfold_handler. cbn in *. rewrite H1. cbn. rewrite H2.
  destruct (Api.is_unauthorized e); cbn;
    [destruct (String.eqb (pathname loc) "/"); cbn|];
    flatten_log; repeat split.
Qed.

Lemma handleSubmit_fulfilled (bk : Backend) (w : World)
    (saved : SavedProfile) (done : AnalysisResult) :
  save_profile bk (formData (wizard w)) = Fulfilled saved ->
  analyze bk (id saved) = Fulfilled done ->
  fst (handleSubmit bk w) = Ret tt /\
  wizard (snd (handleSubmit bk w)) =
    mkWizardState (currentStep (wizard w)) false false (formData (wizard w)) /\
  Effects.location (snd (handleSubmit bk w)) =
    mkLocation ("/results/" ++ report_id done) ""
               (href_assigned (Effects.location w)) /\
  log (snd (handleSubmit bk w)) =
    (log w ++
     [SetIsSubmitting true; Call (POST_profile (formData (wizard w)));
      ToastSuccess "Profile saved!"; SetIsAnalyzing true;
      Call (POST_analyze (id saved)); ToastSuccess "Analysis complete!";
      Navigate ("/results/" ++ report_id done);
      SetIsSubmitting false; SetIsAnalyzing false])%list.
Proof.
  intros H1 H2. destruct w as [loc au wz ms lg].
  unfold_handler. cbn in *. rewrite H1. cbn. rewrite H2. cbn.
  flatten_log. repeat split.
Qed.

(** C2: when "save profile" fails, [handleSubmit] issues no "run analysis"
    call (its only backend call is the save), leaves the step index and
    the Draft Profile as they were, ends with the form back on screen, and
    surfaces an error notice without navigating; and in every execution a
    "run analysis" call in the log means that the save was fulfilled, that
    the call carries the identifier the save returned, and that the save
    call comes earlier in the log. *)
Theorem save_failure_stops_submission :
  forall (bk : Backend) (w : World),
    let fd := formData (wizard w) in
    let w' := snd (handleSubmit bk w) in
    let es := events_of (handleSubmit bk) w in
    (forall e, save_profile bk fd = Rejected e ->
       calls es = [POST_profile fd] /\
       (forall pid, ~ In (Call (POST_analyze pid)) es) /\
       currentStep (wizard w') = currentStep (wizard w) /\
       formData (wizard w') = fd /\
       isSubmitting (wizard w') = false /\
       isAnalyzing (wizard w') = false /\
       In (ToastError (error_notice e)) es /\
       (forall to, ~ In (Navigate to) es)) /\
    (forall pid, In (Call (POST_analyze pid)) es ->
       exists saved,
         save_profile bk fd = Fulfilled saved /\
         pid = id saved /\
         precedes (Call (POST_profile fd)) (Call (POST_analyze pid)) es).
Proof.
  intros bk w fd w' es. subst fd w' es. split.
  - intros e H.
    destruct (handleSubmit_save_rejected bk w e H) as (_ & Hz & Hlog).
    apply events_of_log in Hlog. rewrite Hlog, Hz. cbn [app].
    repeat split.
    + cbn [calls]. rewrite calls_app, calls_interceptor_events. reflexivity.
    + intros pid Hin. cbn [In] in Hin.
      destruct Hin as [Hin|[Hin|Hin]]; try discriminate.
      apply in_app_or in Hin. destruct Hin as [Hin|Hin].
      * apply In_interceptor_events in Hin. discriminate.
      * cbn [In] in Hin. intuition discriminate.
    + right. right. apply in_or_app. right. cbn. auto.
    + intros to Hin. cbn [In] in Hin.
      destruct Hin as [Hin|[Hin|Hin]]; try discriminate.
      apply in_app_or in Hin. destruct Hin as [Hin|Hin].
      * apply In_interceptor_events in Hin. discriminate.
      * cbn [In] in Hin. intuition discriminate.
  - intros pid Hin.
    destruct (save_profile bk (formData (wizard w))) as [saved|e] eqn:Hsave.
    + exists saved. split; [reflexivity|].
      assert (Hpre : forall rest,
        In (Call (POST_analyze pid))
           ([SetIsSubmitting true; Call (POST_profile (formData (wizard w)));
             ToastSuccess "Profile saved!"; SetIsAnalyzing true;
             Call (POST_analyze (id saved))] ++ rest) ->
        (forall r, In (Call r) rest -> False) ->
        pid = id saved /\
        precedes (Call (POST_profile (formData (wizard w))))
                 (Call (POST_analyze pid))
           ([SetIsSubmitting true; Call (POST_profile (formData (wizard w)));
             ToastSuccess "Profile saved!"; SetIsAnalyzing true;
             Call (POST_analyze (id saved))] ++ rest)).
      { intros rest Hi Hno. cbn [app In] in Hi.
        destruct Hi as [Hi|[Hi|[Hi|[Hi|[Hi|Hi]]]]]; try discriminate.
        - injection Hi as <-. split; [reflexivity|].
          exists [SetIsSubmitting true],
                 [ToastSuccess "Profile saved!"; SetIsAnalyzing true], rest.
          reflexivity.
        - exfalso. exact (Hno _ Hi). }
      destruct (analyze bk (id saved)) as [done|e] eqn:Han.
      * destruct (handleSubmit_fulfilled bk w saved done Hsave Han)
          as (_ & _ & _ & Hlog).
        apply events_of_log in Hlog. rewrite Hlog in Hin |- *.
        apply (Hpre _ Hin). intros r Hr. cbn [In] in Hr. intuition discriminate.
      * destruct (handleSubmit_analysis_rejected bk w saved e Hsave Han)
          as (_ & _ & Hlog).
        apply events_of_log in Hlog. rewrite Hlog in Hin |- *.
        apply (Hpre _ Hin). intros r Hr.
        apply in_app_or in Hr. destruct Hr as [Hr|Hr].
        -- apply In_interceptor_events in Hr. discriminate.
        -- cbn [In] in Hr. intuition discriminate.
    + exfalso.
      destruct (handleSubmit_save_rejected bk w e Hsave) as (_ & _ & Hlog).
      apply events_of_log in Hlog. rewrite Hlog in Hin. cbn [app In] in Hin.
      destruct Hin as [Hin|[Hin|Hin]]; try discriminate.
      apply in_app_or in Hin. destruct Hin as [Hin|Hin].
      * apply In_interceptor_events in Hin. discriminate.
      * cbn [In] in Hin. intuition discriminate.
Qed.

Lemma save_failure_stops_submission_witness :
  save_profile (Samples.backend_failing Samples.unauthorized)
    (formData (wizard (Samples.signed_in_world "/onboarding" Samples.last_step [])))
    = Rejected Samples.unauthorized /\
  calls (events_of (handleSubmit (Samples.backend_failing Samples.unauthorized))
           (Samples.signed_in_world "/onboarding" Samples.last_step []))
    = [POST_profile Profile.initial] /\
  currentStep (wizard (snd (handleSubmit (Samples.backend_failing Samples.unauthorized)
           (Samples.signed_in_world "/onboarding" Samples.last_step [])))) = 5 /\
  In (Call (POST_analyze "p1"))
     (events_of (handleSubmit Samples.backend_up)
        (Samples.signed_in_world "/onboarding" Samples.last_step [])) /\
  exists saved,
    save_profile Samples.backend_up
      (formData (wizard (Samples.signed_in_world "/onboarding" Samples.last_step [])))
      = Fulfilled saved /\
    "p1" = id saved.
Proof.
  split; [reflexivity|].
  pose proof (proj1 (save_failure_stops_submission
                       (Samples.backend_failing Samples.unauthorized)
                       (Samples.signed_in_world "/onboarding" Samples.last_step []))
                Samples.unauthorized eq_refl) as H.
  split; [exact (proj1 H)|].
  split; [exact (proj1 (proj2 (proj2 H)))|].
  assert (Hin : In (Call (POST_analyze "p1"))
                   (events_of (handleSubmit Samples.backend_up)
                      (Samples.signed_in_world "/onboarding" Samples.last_step [])))
    by (vm_compute; do 4 right; left; reflexivity).
  split; [exact Hin|].
  destruct (proj2 (save_failure_stops_submission Samples.backend_up
                     (Samples.signed_in_world "/onboarding" Samples.last_step []))
              "p1" Hin) as (saved & Hs & Hid & _).
  exists saved. split; assumption.
Defined.

(** C5: when "save profile" is fulfilled with identifier [p1] and "run
    analysis" with [report_id] [r1], the backend calls of [handleSubmit]
    are the save followed by one "run analysis" whose payload is
    [profile_id = p1], and the only navigation is to the report view of
    [r1], where the location ends. *)
Theorem submission_success_navigates_to_report :
  forall (bk : Backend) (w : World) (p1 r1 : string),
    save_profile bk (formData (wizard w)) = Fulfilled (mkSavedProfile p1) ->
    analyze bk p1 = Fulfilled (mkAnalysisResult r1) ->
    calls (events_of (handleSubmit bk) w) =
      [POST_profile (formData (wizard w)); POST_analyze p1] /\
    events_of (handleSubmit bk) w =
      [SetIsSubmitting true; Call (POST_profile (formData (wizard w)));
       ToastSuccess "Profile saved!"; SetIsAnalyzing true;
       Call (POST_analyze p1); ToastSuccess "Analysis complete!";
       Navigate ("/results/" ++ r1);
       SetIsSubmitting false; SetIsAnalyzing false] /\
    pathname (Effects.location (snd (handleSubmit bk w))) = "/results/" ++ r1.
Proof.
  intros bk w p1 r1 H1 H2.
  destruct (handleSubmit_fulfilled bk w _ _ H1 H2) as (_ & _ & Hloc & Hlog).
  apply events_of_log in Hlog. rewrite Hlog, Hloc. repeat split.
Qed.

Lemma submission_success_navigates_to_report_witness :
  calls (events_of (handleSubmit Samples.backend_up)
           (Samples.signed_in_world "/onboarding" Samples.last_step [])) =
    [POST_profile Profile.initial; POST_analyze "p1"] /\
  pathname (Effects.location (snd (handleSubmit Samples.backend_up
           (Samples.signed_in_world "/onboarding" Samples.last_step [])))) =
    "/results/r1".
Proof.
  pose proof (submission_success_navigates_to_report Samples.backend_up
                (Samples.signed_in_world "/onboarding" Samples.last_step [])
                "p1" "r1" eq_refl eq_refl) as H.
  exact (conj (proj1 H) (proj2 (proj2 H))).
Defined.

End Submission.

(** ** Session bootstrap *)
Section Bootstrap.
Import Effects Trace AuthContext SessionSpec.

Lemma str_includes_truthy (needle hay : string) :
  Js.truthy_str needle = true ->
  Js.str_includes needle hay = true -> Js.truthy_str hay = true.
Proof. destruct needle, hay; simpl; congruence. Qed.

Lemma append_empty_r (s : string) : (s ++ "")%string = s.
Proof. induction s as [|c s IH]; simpl; [reflexivity | now rewrite IH]. Qed.

Lemma append_snoc_cons (a : string) (c : ascii) (b : string) :
  ((a ++ String c "") ++ b)%string = (a ++ String c b)%string.
Proof. induction a as [|d a IH]; simpl; [reflexivity | now rewrite IH]. Qed.

Lemma split_on_no_sep (sep : ascii) (s : string) :
  forall cur,
    (forall c, In c (list_ascii_of_string s) -> Ascii.eqb c sep = false) ->
    Js.split_on sep cur s = [(cur ++ s)%string].
Proof.
  induction s as [|c s IH]; simpl; intros cur H.
  - now rewrite append_empty_r.
  - rewrite (H c) by now left.
    rewrite IH by (intros d Hd; apply H; now right).
    now rewrite append_snoc_cons.
Qed.

Lemma plain_token_no_amp (token : string) :
  plain_token token = true ->
  forall c, In c (list_ascii_of_string token) -> Ascii.eqb c "&"%char = false.
Proof.
  induction token as [|a token IH]; simpl; intros H c Hc; [contradiction|].
  apply andb_true_iff in H. destruct H as [H Hrest].
  apply andb_true_iff in H. destruct H as [H _].
  apply andb_true_iff in H. destruct H as [H _].
  destruct Hc as [<-|Hc].
  - now apply negb_true_iff.
  - now apply IH.
Qed.

Lemma percent_decode_plain (token : string) :
  plain_token token = true -> Js.percent_decode token = token.
Proof.
  induction token as [|a token IH]; simpl; intros H; [reflexivity|].
  apply andb_true_iff in H. destruct H as [H Hrest].
  apply andb_true_iff in H. destruct H as [H Hpct].
  apply andb_true_iff in H. destruct H as [_ Hplus].
  apply negb_true_iff in Hpct, Hplus. rewrite Hplus, Hpct.
  now rewrite IH.
Qed.

(** The fragment [#session_id=<token>] of the sign-in callback carries
    [<token>]. *)
Lemma literal_fragment_carries (token : string) :
  plain_token token = true -> token <> "" ->
  carries_session_id ("#session_id=" ++ token) token.
Proof.
  intros Hp Hne. repeat split; [| |assumption].
  - simpl. destruct token; reflexivity.
  - unfold Js.URLSearchParams_get. cbn [Js.substring1 append].
    rewrite split_on_no_sep.
    + cbn. now rewrite percent_decode_plain.
    + intros c Hc. cbn in Hc.
      repeat (destruct Hc as [<-|Hc]; [reflexivity|]).
      now apply (plain_token_no_amp token).
Qed.

Lemma processSessionId_fulfilled (bk : Backend) (w : World) (token : string)
    (u : Identity) :
  auth_session bk token = Fulfilled u ->
  processSessionId bk token w =
    (Ret (Some u),
     mkWorld (mkLocation "/dashboard" "" (href_assigned (location w)))
             (mkAuthState (Some u) false) (wizard w) (completedMilestones w)
             (log w ++
              [SetLoading true; Call (POST_auth_session token); SetUser (Some u);
               ReplaceState (pathname (location w)); Navigate "/dashboard";
               SetLoading false])).
Proof.
  intros H. destruct w as [loc au wz ms lg].
  unfold_handler. cbn in *. rewrite H. cbn. flatten_log. reflexivity.
Qed.

Lemma processSessionId_rejected (bk : Backend) (w : World) (token : string)
    (e : AxiosError) :
  auth_session bk token = Rejected e ->
  fst (processSessionId bk token w) = Ret None /\
  auth (snd (processSessionId bk token w)) = mkAuthState None false /\
  pathname (location (snd (processSessionId bk token w))) = "/" /\
  hash (location (snd (processSessionId bk token w))) = "" /\
  log (snd (processSessionId bk token w)) =
    (log w ++
     [SetLoading true; Call (POST_auth_session token)] ++
     interceptor_events w e ++
     [ConsoleError "Session processing failed:"; SetUser None; Navigate "/";
      SetLoading false])%list.
Proof.
  intros H. destruct w as [loc au wz ms lg]. unfold interceptor_events.
  unfold_handler. cbn in *. rewrite H.
  destruct (Api.is_unauthorized e); cbn;
    [destruct (String.eqb (pathname loc) "/"); cbn|];
    flatten_log; repeat split.
Qed.

Lemma checkSession_fulfilled (bk : Backend) (w : World) (u : Identity) :
  auth_me bk = Fulfilled u ->
  checkSession bk w =
    (Ret (Some u),
     mkWorld (location w) (mkAuthState (Some u) false) (wizard w)
             (completedMilestones w)
             (log w ++ [Call GET_auth_me; SetUser (Some u); SetLoading false])).
Proof.
  intros H. destruct w as [loc au wz ms lg].
  unfold_handler. cbn in *. rewrite H. cbn. flatten_log. reflexivity.
Qed.

Lemma checkSession_rejected (bk : Backend) (w : World) (e : AxiosError) :
  auth_me bk = Rejected e ->
  fst (checkSession bk w) = Ret None /\
  auth (snd (checkSession bk w)) = mkAuthState None false /\
  pathname (location (snd (checkSession bk w))) = pathname (location w) /\
  log (snd (checkSession bk w)) =
    (log w ++ [Call GET_auth_me] ++ interceptor_events w e ++
     [SetUser None; SetLoading false])%list.
Proof.
  intros H. destruct w as [loc au wz ms lg]. unfold interceptor_events.
  unfold_handler. cbn in *. rewrite H.
  destruct (Api.is_unauthorized e); cbn;
    [destruct (String.eqb (pathname loc) "/"); cbn|];
    flatten_log; repeat split.
Qed.

(** With a token in the fragment the mount effect is the token exchange;
    without one it is the session resolution. *)
Lemma handleAuth_with_token (bk : Backend) (w : World) (token : string) :
  carries_session_id (hash (location w)) token ->
  handleAuth bk w =
    (processSessionId bk token ;; ret tt) w.
Proof.
  intros (Hinc & Hget & Hne). unfold handleAuth.
  unfold bind at 1, get_world at 1. cbn beta iota.
  rewrite Hinc, (str_includes_truthy "session_id=" _ eq_refl Hinc), Hget.
  cbn [andb].
  destruct token; [congruence | reflexivity].
Qed.

Lemma handleAuth_without_token (bk : Backend) (w : World) :
  hash (location w) = "" ->
  handleAuth bk w = (checkSession bk ;; ret tt) w.
Proof.
  intros H. unfold handleAuth.
  unfold bind at 1, get_world at 1. cbn beta iota. rewrite H. reflexivity.
Qed.

Lemma handleAuth_branches (bk : Backend) (w : World) :
  handleAuth bk w =
  (if (Js.truthy_str (hash (location w))
       && Js.str_includes "session_id=" (hash (location w)))%bool
   then
     match Js.URLSearchParams_get (Js.substring1 (hash (location w)))
             "session_id" with
     | Some sessionId =>
         if Js.truthy_str sessionId
         then processSessionId bk sessionId ;; ret tt
         else checkSession bk ;; ret tt
     | None => checkSession bk ;; ret tt
     end
   else checkSession bk ;; ret tt) w.
Proof. reflexivity. Qed.

(** Whatever the fragment and whatever the backend answers, the mount
    effect ends with [loading] false. *)
Lemma handleAuth_completes (bk : Backend) (w : World) :
  fst (handleAuth bk w) = Ret tt /\
  loading (auth (snd (handleAuth bk w))) = false.
Proof.
  assert (Hcheck : fst ((checkSession bk ;; ret tt) w) = Ret tt /\
                   loading (auth (snd ((checkSession bk ;; ret tt) w))) = false).
  { unfold bind.
    destruct (auth_me bk) as [u|e] eqn:E.
    - rewrite (checkSession_fulfilled bk w u E). split; reflexivity.
    - destruct (checkSession_rejected bk w e E) as (Ho & Ha & _).
      destruct (checkSession bk w) as [o w']. cbn in Ho, Ha. subst o.
      cbn. rewrite Ha. split; reflexivity. }
  rewrite handleAuth_branches.
  destruct (_ && _)%bool; [|exact Hcheck].
  destruct (Js.URLSearchParams_get _ _) as [token|]; [|exact Hcheck].
  destruct (Js.truthy_str token); [|exact Hcheck].
  unfold bind.
  destruct (auth_session bk token) as [u|e] eqn:E.
  - rewrite (processSessionId_fulfilled bk w token u E). split; reflexivity.
  - destruct (processSessionId_rejected bk w token e E) as (Ho & Ha & _).
    destruct (processSessionId bk token w) as [o w']. cbn in Ho, Ha. subst o.
    cbn. rewrite Ha. split; reflexivity.
Qed.

(** C3: when the fragment of the first-load URL carries a session token,
    the mount effect calls the token exchange once, with that token, and
    makes no other backend call (so no session resolution); when the
    exchange is fulfilled the session ends Authenticated with the returned
    identity, the fragment is cleared by [replaceState] and the router
    goes to [/dashboard]; when it is rejected the session ends Anonymous
    and the router goes to [/]. *)
Theorem bootstrap_exchanges_fragment_token :
  forall (bk : Backend) (w : World) (token : string),
    carries_session_id (hash (location w)) token ->
    calls (events_of (handleAuth bk) w) = [POST_auth_session token] /\
    ~ In (Call GET_auth_me) (events_of (handleAuth bk) w) /\
    (forall u, auth_session bk token = Fulfilled u ->
       session_state (auth (snd (handleAuth bk w))) = Authenticated u /\
       hash (location (snd (handleAuth bk w))) = "" /\
       pathname (location (snd (handleAuth bk w))) = "/dashboard" /\
       events_of (handleAuth bk) w =
         [SetLoading true; Call (POST_auth_session token); SetUser (Some u);
          ReplaceState (pathname (location w)); Navigate "/dashboard";
          SetLoading false]) /\
    (forall e, auth_session bk token = Rejected e ->
       session_state (auth (snd (handleAuth bk w))) = Anonymous /\
       hash (location (snd (handleAuth bk w))) = "" /\
       pathname (location (snd (handleAuth bk w))) = "/" /\
       In (Navigate "/") (events_of (handleAuth bk) w)).
Proof.
  intros bk w token Hc.
  unfold events_of. rewrite (handleAuth_with_token bk w token Hc).
  unfold bind.
  destruct (auth_session bk token) as [u|e] eqn:E.
  - rewrite (processSessionId_fulfilled bk w token u E). cbn.
    rewrite skipn_length_app.
    split; [reflexivity|]. split; [cbn; intuition discriminate|]. split.
    + intros u' Hu. injection Hu as <-. repeat split.
    + intros e He. discriminate.
  - destruct (processSessionId_rejected bk w token e E)
      as (Ho & Ha & Hp & Hh & Hlog).
    destruct (processSessionId bk token w) as [o w'] eqn:Erun.
    cbn in Ho, Ha, Hp, Hh, Hlog. subst o. cbn.
    rewrite Hlog, skipn_length_app, Ha, Hp, Hh. cbn [app calls].
    rewrite calls_app, calls_interceptor_events.
    split; [reflexivity|]. split; [|split].
    + intros Hin. cbn [In] in Hin.
      destruct Hin as [Hin|[Hin|Hin]]; try discriminate.
      apply in_app_or in Hin. destruct Hin as [Hin|Hin].
      * apply In_interceptor_events in Hin. discriminate.
      * cbn [In] in Hin. intuition discriminate.
    + intros u Hu. discriminate.
    + intros e' _. repeat split.
      right. right. apply in_or_app. right. cbn. auto.
Qed.

Lemma bootstrap_exchanges_fragment_token_witness :
  carries_session_id
    (hash (location (Samples.fresh_world "/dashboard" "#session_id=abc123")))
    "abc123" /\
  calls (events_of (handleAuth Samples.backend_up)
           (Samples.fresh_world "/dashboard" "#session_id=abc123")) =
    [POST_auth_session "abc123"] /\
  session_state (auth (snd (handleAuth Samples.backend_up
           (Samples.fresh_world "/dashboard" "#session_id=abc123")))) =
    Authenticated Samples.alice /\
  session_state (auth (snd (handleAuth (Samples.backend_failing Samples.server_error)
           (Samples.fresh_world "/dashboard" "#session_id=abc123")))) =
    Anonymous.
Proof.
  assert (Hc : carries_session_id
            (hash (location (Samples.fresh_world "/dashboard" "#session_id=abc123")))
            "abc123").
  { repeat split. discriminate. }
  split; [exact Hc|].
  pose proof (bootstrap_exchanges_fragment_token Samples.backend_up
                (Samples.fresh_world "/dashboard" "#session_id=abc123")
                "abc123" Hc) as H.
  pose proof (bootstrap_exchanges_fragment_token
                (Samples.backend_failing Samples.server_error)
                (Samples.fresh_world "/dashboard" "#session_id=abc123")
                "abc123" Hc) as H'.
  split; [exact (proj1 H)|].
  split; [exact (proj1 (proj1 (proj2 (proj2 H)) Samples.alice eq_refl))|].
  exact (proj1 (proj2 (proj2 (proj2 H')) Samples.server_error eq_refl)).
Defined.

End Bootstrap.

(** ** Authorization failures seen by the shared client *)
Section Unauthorized.
Import Effects Trace AuthContext Document.

(** A rejected reply, as the caller of the client sees it. *)
Lemma request_rejected (A : Type) (r : Request) (e : AxiosError) (w : World) :
  Api.request r (@Rejected A e) w =
    (Throw e,
     mkWorld
       (if (Api.is_unauthorized e
            && negb (String.eqb (pathname (location w)) "/"))%bool
        then mkLocation (pathname (location w)) (hash (location w)) (Some "/")
        else location w)
       (auth w) (wizard w) (completedMilestones w)
       (log w ++ Call r :: interceptor_events w e)).
Proof.
  destruct w as [loc au wz ms lg]. unfold interceptor_events.
  unfold_handler. cbn.
  destruct (Api.is_unauthorized e); cbn;
    [destruct (String.eqb (pathname loc) "/"); cbn|];
    flatten_log; reflexivity.
Qed.

(** A fulfilled reply passes through untouched. *)
Lemma request_fulfilled (A : Type) (r : Request) (data : A) (w : World) :
  Api.request r (Fulfilled data) w =
    (Ret data,
     mkWorld (location w) (auth w) (wizard w) (completedMilestones w)
             (log w ++ [Call r])).
Proof. destruct w. reflexivity. Qed.

(** A failure other than 401 is passed on without any redirect. *)
Lemma other_failure_no_redirect (A : Type) (r : Request) (e : AxiosError) (w : World) :
  Api.is_unauthorized e = false ->
  Api.request r (@Rejected A e) w =
    (Throw e,
     mkWorld (location w) (auth w) (wizard w) (completedMilestones w)
             (log w ++ [Call r])).
Proof.
  intros H. rewrite request_rejected. unfold interceptor_events.
  rewrite H. reflexivity.
Qed.

(** C4, as stated, fails: a 401 answer to a report update, received by a
    signed-in user on a report page, makes the client request a load of
    [/] and nothing else; the handler shows a notice, the session is still
    Authenticated, and after the load the session is resolved again and,
    this backend answering, is Authenticated again: it is never
    Anonymous. *)
Lemma unauthorized_reply_keeps_session :
  update_milestones Samples.backend_reports_unauthorized "r1"
    (Results.newMilestones [] "0-0") = Rejected Samples.unauthorized /\
  Api.is_unauthorized Samples.unauthorized = true /\
  events_of
    (Results.toggleMilestone Samples.backend_reports_unauthorized "r1" "0-0")
    (Samples.signed_in_world "/results/r1" Onboarding.initial []) =
    [SetCompletedMilestones ["0-0"];
     Call (PATCH_report_milestones "r1" ["0-0"]);
     AssignHref "/";
     ToastError "Failed to update milestone"] /\
  session_state
    (auth (snd (Results.toggleMilestone Samples.backend_reports_unauthorized
                  "r1" "0-0"
                  (Samples.signed_in_world "/results/r1" Onboarding.initial []))))
    = Authenticated Samples.alice /\
  session_state
    (auth (page_load
       (snd (Results.toggleMilestone Samples.backend_reports_unauthorized
               "r1" "0-0"
               (Samples.signed_in_world "/results/r1" Onboarding.initial [])))))
    = Bootstrapping /\
  session_state
    (auth (snd (handleAuth Samples.backend_reports_unauthorized
       (page_load
          (snd (Results.toggleMilestone Samples.backend_reports_unauthorized
                  "r1" "0-0"
                  (Samples.signed_in_world "/results/r1" Onboarding.initial [])))))))
    = Authenticated Samples.alice.
Proof. repeat split. Qed.

(** C4, amended: on a 401 answer the shared client hands the rejection to
    its caller and leaves the session state alone; unless the current
    path is [/] it requests a load of [/], which restarts the application
    in Bootstrapping, from where the session ends Anonymous if the session
    resolution fails; when the current path is [/] it changes nothing. *)
Theorem unauthorized_reply_redirects_unless_public :
  forall (A : Type) (r : Request) (e : AxiosError) (w : World),
    Api.is_unauthorized e = true ->
    fst (Api.request r (@Rejected A e) w) = Throw e /\
    auth (snd (Api.request r (@Rejected A e) w)) = auth w /\
    (pathname (location w) <> "/" ->
       events_of (Api.request r (@Rejected A e)) w = [Call r; AssignHref "/"] /\
       href_assigned (location (snd (Api.request r (@Rejected A e) w))) = Some "/" /\
       pathname (location (page_load (snd (Api.request r (@Rejected A e) w)))) = "/" /\
       session_state (auth (page_load (snd (Api.request r (@Rejected A e) w))))
         = Bootstrapping /\
       (forall bk e',
          auth_me bk = Rejected e' ->
          session_state
            (auth (snd (handleAuth bk
               (page_load (snd (Api.request r (@Rejected A e) w))))))
            = Anonymous)) /\
    (pathname (location w) = "/" ->
       events_of (Api.request r (@Rejected A e)) w = [Call r] /\
       location (snd (Api.request r (@Rejected A e) w)) = location w).
Proof.
  intros A r e w H401.
  unfold events_of. rewrite request_rejected. unfold interceptor_events.
  rewrite H401. cbn [fst snd auth log location andb].
  split; [reflexivity|]. split; [reflexivity|]. split.
  - intros Hp. apply String.eqb_neq in Hp. rewrite Hp. cbn [negb].
    rewrite skipn_length_app. unfold page_load. cbn.
    repeat (split; [reflexivity|]).
    intros bk e' Hme.
    match goal with |- context [(checkSession bk ;; ret tt) ?w0] =>
      destruct (checkSession_rejected bk w0 e' Hme) as (Ho & Ha & _);
      unfold bind; destruct (checkSession bk w0) as [o w1]
    end.
    cbn in Ho, Ha. subst o. cbn. rewrite Ha. reflexivity.
  - intros Hp. apply String.eqb_eq in Hp. rewrite Hp. cbn [negb].
    rewrite skipn_length_app. split; reflexivity.
Qed.

Lemma unauthorized_reply_redirects_unless_public_witness :
  Api.is_unauthorized Samples.unauthorized = true /\
  pathname (location (Samples.signed_in_world "/dashboard" Onboarding.initial []))
    <> "/" /\
  events_of (Api.request GET_reports (@Rejected unit Samples.unauthorized))
    (Samples.signed_in_world "/dashboard" Onboarding.initial []) =
    [Call GET_reports; AssignHref "/"] /\
  session_state
    (auth (snd (handleAuth (Samples.backend_failing Samples.unauthorized)
       (page_load
          (snd (Api.request GET_reports (@Rejected unit Samples.unauthorized)
                  (Samples.signed_in_world "/dashboard" Onboarding.initial [])))))))
    = Anonymous /\
  pathname (location (Samples.fresh_world "/" "")) = "/" /\
  events_of (Api.request GET_auth_me (@Rejected Identity Samples.unauthorized))
    (Samples.fresh_world "/" "") = [Call GET_auth_me].
Proof.
  split; [reflexivity|].
  assert (Hp : pathname (location
            (Samples.signed_in_world "/dashboard" Onboarding.initial [])) <> "/")
    by discriminate.
  split; [exact Hp|].
  pose proof (unauthorized_reply_redirects_unless_public unit GET_reports
                Samples.unauthorized
                (Samples.signed_in_world "/dashboard" Onboarding.initial [])
                eq_refl) as H.
  pose proof (unauthorized_reply_redirects_unless_public Identity GET_auth_me
                Samples.unauthorized (Samples.fresh_world "/" "") eq_refl) as H'.
  destruct (proj1 (proj2 (proj2 H)) Hp) as (Hes & _ & _ & _ & Hanon).
  split; [exact Hes|].
  split; [exact (Hanon (Samples.backend_failing Samples.unauthorized)
                       Samples.unauthorized eq_refl)|].
  split; [reflexivity|].
  exact (proj1 (proj2 (proj2 (proj2 H')) eq_refl)).
Defined.

End Unauthorized.

(** ** Protected routes *)
Section Routes.
Import Effects AuthContext App.

Lemma ProtectedRoute_loading (a : AuthState) (children : Element) :
  loading a = true -> ProtectedRoute a children = LoadingIndicator.
Proof. intros H. unfold ProtectedRoute. now rewrite H. Qed.

Lemma ProtectedRoute_by_state (a : AuthState) (children : Element) :
  ProtectedRoute a children =
  match session_state a with
  | Bootstrapping => LoadingIndicator
  | Anonymous => NavigateTo "/" true
  | Authenticated _ => children
  end.
Proof.
  unfold ProtectedRoute, session_state.
  destruct (loading a); [reflexivity|]. now destruct (user a).
Qed.

(** C7: every route of the table other than the public entry is the
    shared wrapper around its page; while [loading] holds the wrapper
    renders the loading indicator, whatever the page; it renders the
    redirect to [/] exactly when the session is Anonymous (bootstrapping
    over, no user) and the page exactly when the session is Authenticated;
    and the mount effect of the Session Controller always ends with
    [loading] false. *)
Theorem protected_routes_wait_for_bootstrap :
  (forall r, In r AppRoutes -> path r <> "/" ->
     exists page, element r = fun a => ProtectedRoute a (Page page)) /\
  (forall a children,
     session_state a = Bootstrapping ->
     ProtectedRoute a children = LoadingIndicator) /\
  (forall a page to replace,
     ProtectedRoute a (Page page) = NavigateTo to replace <->
     to = "/" /\ replace = true /\ session_state a = Anonymous) /\
  (forall a page,
     ProtectedRoute a (Page page) = Page page <->
     exists u, session_state a = Authenticated u) /\
  (forall a, session_state a = Bootstrapping <-> loading a = true) /\
  (forall bk w, loading (auth (snd (handleAuth bk w))) = false).
Proof.
  split; [|split; [|split; [|split; [|split]]]].
  - intros r Hin Hpath. cbn in Hin.
    destruct Hin as [<-|[<-|[<-|[<-|[]]]]]; cbn in *;
      [congruence | eexists; reflexivity ..].
  - intros a children H. rewrite ProtectedRoute_by_state. now rewrite H.
  - intros a page to replace. rewrite ProtectedRoute_by_state.
    destruct (session_state a); split; intros H;
      try discriminate; try (destruct H as (_ & _ & H); discriminate).
    + injection H as <- <-. auto.
    + destruct H as (-> & -> & _). reflexivity.
  - intros a page. rewrite ProtectedRoute_by_state.
    destruct (session_state a); split; intros H;
      try discriminate; try (destruct H; discriminate).
    + eexists; reflexivity.
    + reflexivity.
  - intros a. unfold session_state. destruct (loading a).
    + split; reflexivity.
    + destruct (user a); split; discriminate.
  - intros bk w. apply handleAuth_completes.
Qed.

Lemma protected_routes_wait_for_bootstrap_witness :
  In (mkRoute "/onboarding" (fun a => ProtectedRoute a (Page Onboarding)))
     AppRoutes /\
  path (mkRoute "/onboarding" (fun a => ProtectedRoute a (Page Onboarding)))
    <> "/" /\
  (exists page,
     element (mkRoute "/onboarding" (fun a => ProtectedRoute a (Page Onboarding)))
     = fun a => ProtectedRoute a (Page page)) /\
  session_state AuthContext.initial = Bootstrapping /\
  ProtectedRoute AuthContext.initial (Page Onboarding) = LoadingIndicator.
Proof.
  assert (Hin : In (mkRoute "/onboarding"
                      (fun a => ProtectedRoute a (Page Onboarding))) AppRoutes)
    by (right; left; reflexivity).
  assert (Hp : path (mkRoute "/onboarding"
                       (fun a => ProtectedRoute a (Page Onboarding))) <> "/")
    by discriminate.
  split; [exact Hin|]. split; [exact Hp|].
  split; [exact (proj1 protected_routes_wait_for_bootstrap _ Hin Hp)|].
  split; [reflexivity|].
  exact (proj1 (proj2 protected_routes_wait_for_bootstrap)
           AuthContext.initial (Page Onboarding) eq_refl).
Defined.

End Routes.

(** ** The milestone checklist *)
Section Milestones.
Import Effects Trace Results.

Lemma newMilestones_flips (completed : list string) (milestone : string) :
  Js.includes milestone (newMilestones completed milestone) =
  negb (Js.includes milestone completed).
Proof.
  unfold newMilestones. destruct (Js.includes milestone completed) eqn:E.
  - rewrite includes_filter_neq. now rewrite String.eqb_refl.
  - rewrite includes_app. simpl. now rewrite String.eqb_refl, orb_true_r.
Qed.

Lemma toggleMilestone_fulfilled (bk : Backend) (w : World) (reportId milestone : string) :
  update_milestones bk reportId (newMilestones (completedMilestones w) milestone)
    = Fulfilled tt ->
  toggleMilestone bk reportId milestone w =
    (Ret tt,
     mkWorld (location w) (auth w) (wizard w)
       (newMilestones (completedMilestones w) milestone)
       (log w ++
        [SetCompletedMilestones (newMilestones (completedMilestones w) milestone);
         Call (PATCH_report_milestones reportId
                 (newMilestones (completedMilestones w) milestone))])).
Proof.
  intros H. destruct w as [loc au wz ms lg].
  unfold_handler. cbn in *. rewrite H. cbn. flatten_log. reflexivity.
Qed.

Lemma toggleMilestone_rejected (bk : Backend) (w : World) (reportId milestone : string)
    (e : AxiosError) :
  update_milestones bk reportId (newMilestones (completedMilestones w) milestone)
    = Rejected e ->
  fst (toggleMilestone bk reportId milestone w) = Ret tt /\
  completedMilestones (snd (toggleMilestone bk reportId milestone w)) =
    newMilestones (completedMilestones w) milestone /\
  log (snd (toggleMilestone bk reportId milestone w)) =
    (log w ++
     [SetCompletedMilestones (newMilestones (completedMilestones w) milestone);
      Call (PATCH_report_milestones reportId
              (newMilestones (completedMilestones w) milestone))] ++
     interceptor_events w e ++
     [ToastError "Failed to update milestone"])%list.
Proof.
  intros H. destruct w as [loc au wz ms lg]. unfold interceptor_events.
  unfold_handler. cbn in *. rewrite H.
  destruct (Api.is_unauthorized e); cbn;
    [destruct (String.eqb (pathname loc) "/"); cbn|];
    flatten_log; repeat split.
Qed.

(** C10: [toggleMilestone] first sets the displayed milestone list to the
    toggled value and then issues the "update milestones" call with that
    value; nothing after the call sets the list again, so the list ends
    at the toggled value whatever the backend answers, and a rejected call
    only adds an error notice: the display then differs from what it was
    before the click, while the backend has refused the change. *)
Theorem milestone_toggle_is_not_rolled_back :
  forall (bk : Backend) (w : World) (reportId milestone : string),
    Js.includes milestone (newMilestones (completedMilestones w) milestone) =
      negb (Js.includes milestone (completedMilestones w)) /\
    completedMilestones (snd (toggleMilestone bk reportId milestone w)) =
      newMilestones (completedMilestones w) milestone /\
    fst (toggleMilestone bk reportId milestone w) = Ret tt /\
    exists rest,
      events_of (toggleMilestone bk reportId milestone) w =
        SetCompletedMilestones (newMilestones (completedMilestones w) milestone)
        :: Call (PATCH_report_milestones reportId
                   (newMilestones (completedMilestones w) milestone))
        :: rest /\
      (forall ms, ~ In (SetCompletedMilestones ms) rest) /\
      (forall r, ~ In (Call r) rest) /\
      (forall e,
         update_milestones bk reportId
           (newMilestones (completedMilestones w) milestone) = Rejected e ->
         In (ToastError "Failed to update milestone") rest).
Proof.
  intros bk w reportId milestone.
  split; [apply newMilestones_flips|].
  destruct (update_milestones bk reportId
              (newMilestones (completedMilestones w) milestone))
    as [[]|e] eqn:E.
  - rewrite (events_of_log (toggleMilestone bk reportId milestone) w _
               (f_equal (fun p => log (snd p))
                        (toggleMilestone_fulfilled bk w reportId milestone E))).
    rewrite (toggleMilestone_fulfilled bk w reportId milestone E).
    split; [reflexivity|]. split; [reflexivity|].
    exists []. split; [reflexivity|].
    split; [intros ms []|]. split; [intros r []|]. intros e He. discriminate.
  - destruct (toggleMilestone_rejected bk w reportId milestone e E)
      as (Ho & Hm & Hlog).
    apply events_of_log in Hlog. rewrite Hlog, Ho, Hm.
    split; [reflexivity|]. split; [reflexivity|].
    exists (interceptor_events w e ++ [ToastError "Failed to update milestone"])%list.
    split; [reflexivity|]. split; [|split].
    + intros ms Hin. apply in_app_or in Hin. destruct Hin as [Hin|Hin].
      * apply In_interceptor_events in Hin. discriminate.
      * cbn [In] in Hin. intuition discriminate.
    + intros r Hin. apply in_app_or in Hin. destruct Hin as [Hin|Hin].
      * apply In_interceptor_events in Hin. discriminate.
      * cbn [In] in Hin. intuition discriminate.
    + intros e' _. apply in_or_app. right. left. reflexivity.
Qed.

Lemma milestone_toggle_is_not_rolled_back_witness :
  update_milestones (Samples.backend_failing Samples.server_error) "r1"
    (newMilestones [] "0-0") = Rejected Samples.server_error /\
  completedMilestones
    (snd (toggleMilestone (Samples.backend_failing Samples.server_error)
            "r1" "0-0"
            (Samples.signed_in_world "/results/r1" Onboarding.initial []))) =
    ["0-0"] /\
  exists rest,
    events_of (toggleMilestone (Samples.backend_failing Samples.server_error)
                 "r1" "0-0")
      (Samples.signed_in_world "/results/r1" Onboarding.initial []) =
      SetCompletedMilestones ["0-0"]
      :: Call (PATCH_report_milestones "r1" ["0-0"]) :: rest /\
    In (ToastError "Failed to update milestone") rest.
Proof.
  split; [reflexivity|].
  destruct (milestone_toggle_is_not_rolled_back
              (Samples.backend_failing Samples.server_error)
              (Samples.signed_in_world "/results/r1" Onboarding.initial [])
              "r1" "0-0")
    as (_ & Hm & _ & rest & Hes & _ & _ & Htoast).
  split; [exact Hm|].
  exists rest. split; [exact Hes|].
  exact (Htoast Samples.server_error eq_refl).
Defined.

End Milestones.

(* ================================================================== *)
(** * Part III: further properties of the same sources                 *)
(* ================================================================== *)

(** ** The session controller beyond the token exchange *)
Section SessionController.
Import Effects Trace AuthContext SessionSpec.


(** What a run of [checkSession] leaves, whatever the backend answers. *)
Lemma checkSession_run (bk : Backend) (w : World) :
  exists es,
    log (snd (checkSession bk w)) = (log w ++ es)%list /\
    calls es = [GET_auth_me] /\
    (forall to, ~ In (Navigate to) es) /\
    pathname (location (snd (checkSession bk w))) = pathname (location w) /\
    hash (location (snd (checkSession bk w))) = hash (location w) /\
    loading (auth (snd (checkSession bk w))) = false /\
    fst (checkSession bk w) = Ret (user (auth (snd (checkSession bk w)))) /\
    user (auth (snd (checkSession bk w))) =
      match auth_me bk with Fulfilled u => Some u | Rejected _ => None end.
Proof.
  destruct (auth_me bk) as [u|e] eqn:E.
  - rewrite (checkSession_fulfilled bk w u E). eexists. split; [reflexivity|].
    cbn. repeat split. intros to H. intuition discriminate.
  - destruct w as [loc au wz ms lg].
    exists (Call GET_auth_me :: interceptor_events (mkWorld loc au wz ms lg) e
            ++ [SetUser None; SetLoading false])%list.
    unfold interceptor_events. unfold_handler. cbn. rewrite E.
    destruct (Api.is_unauthorized e); cbn;
      [destruct (String.eqb (pathname loc) "/"); cbn|];
      flatten_log; repeat split; intros to H; cbn in H; intuition discriminate.
Qed.

(** What a run of [processSessionId] calls. *)
Lemma processSessionId_calls (bk : Backend) (w : World) (token : string) :
  calls (events_of (processSessionId bk token) w) = [POST_auth_session token] /\
  loading (auth (snd (processSessionId bk token w))) = false.
Proof.
  destruct (auth_session bk token) as [u|e] eqn:E.
  - unfold events_of. rewrite (processSessionId_fulfilled bk w token u E). cbn.
    rewrite skipn_length_app. split; reflexivity.
  - destruct (processSessionId_rejected bk w token e E) as (_ & Ha & _ & _ & Hlog).
    apply events_of_log in Hlog. rewrite Hlog, Ha. cbn [app calls].
    rewrite calls_app, calls_interceptor_events. split; reflexivity.
Qed.

Lemma events_of_then_ret {A} (m : M A) (w : World) :
  events_of (m ;; ret tt) w = events_of m w /\
  snd ((m ;; ret tt) w) = snd (m w).
Proof.
  unfold events_of, bind, ret. destruct (m w) as [[a|e] w']; split; reflexivity.
Qed.



(** X2: whatever the URL and whatever the backend answers, the mount
    effect makes one backend call, the token exchange or the session
    resolution, returns normally and leaves [loading] false. *)
Theorem bootstrap_single_round_trip :
  forall (bk : Backend) (w : World),
    (calls (events_of (handleAuth bk) w) = [GET_auth_me] \/
     exists token, calls (events_of (handleAuth bk) w) = [POST_auth_session token]) /\
    fst (handleAuth bk w) = Ret tt /\
    session_state (auth (snd (handleAuth bk w))) <> Bootstrapping.
Proof.
  intros bk w. destruct (handleAuth_completes bk w) as [Hret Hload].
  split; [|split; [exact Hret | unfold session_state; rewrite Hload;
                                 destruct (user _); discriminate]].
  unfold events_of. rewrite handleAuth_branches.
  assert (Hcheck : calls (skipn (List.length (log w))
                     (log (snd ((checkSession bk ;; ret tt) w)))) = [GET_auth_me]).
  { rewrite (proj2 (events_of_then_ret (checkSession bk) w)).
    destruct (checkSession_run bk w) as (es & Hlog & Hc & _).
    now rewrite Hlog, skipn_length_app. }
  destruct (_ && _)%bool; [|left; exact Hcheck].
  destruct (Js.URLSearchParams_get _ _) as [token|]; [|left; exact Hcheck].
  destruct (Js.truthy_str token); [|left; exact Hcheck].
  right. exists token.
  rewrite (proj2 (events_of_then_ret (processSessionId bk token) w)).
  apply (processSessionId_calls bk w token).
Qed.

(** X21: [checkSession], which the context also hands to its consumers,
    makes one session-resolution call, never rejects, returns exactly the
    identity it stores ([null] when the call fails), clears [loading] and
    leaves path and fragment alone without any router navigation. *)
Theorem checkSession_returns_what_it_stores :
  forall (bk : Backend) (w : World),
    fst (checkSession bk w) = Ret (user (auth (snd (checkSession bk w)))) /\
    user (auth (snd (checkSession bk w))) =
      match auth_me bk with Fulfilled u => Some u | Rejected _ => None end /\
    loading (auth (snd (checkSession bk w))) = false /\
    calls (events_of (checkSession bk) w) = [GET_auth_me] /\
    (forall to, ~ In (Navigate to) (events_of (checkSession bk) w)) /\
    pathname (location (snd (checkSession bk w))) = pathname (location w) /\
    hash (location (snd (checkSession bk w))) = hash (location w).
Proof.
  intros bk w.
  destruct (checkSession_run bk w) as (es & Hlog & Hc & Hn & Hp & Hh & Hl & Hr & Hu).
  apply events_of_log in Hlog. rewrite Hlog.
  repeat split; assumption.
Qed.

End SessionController.

(** ** Tokens and callback addresses in URLs *)
Section UrlEncoding.
Import Effects Trace AuthContext SessionSpec.

Lemma split_on_first_piece (sep : ascii) (s : string) :
  forall (cur more : string),
    (forall c, In c (list_ascii_of_string s) -> Ascii.eqb c sep = false) ->
    more = "" \/ (exists t, more = String sep t) ->
    exists rest, Js.split_on sep cur (s ++ more) = (cur ++ s)%string :: rest.
Proof.
  induction s as [|c s IH]; intros cur more Hs Hm.
  - cbn [append]. rewrite append_empty_r.
    destruct Hm as [->|[t ->]].
    + exists []. reflexivity.
    + eexists. cbn [Js.split_on]. rewrite Ascii.eqb_refl. reflexivity.
  - cbn [append Js.split_on]. rewrite (Hs c) by now left.
    destruct (IH (cur ++ String c "")%string more) as [rest Hrest].
    + intros d Hd. apply Hs. now right.
    + assumption.
    + exists rest. rewrite Hrest. now rewrite append_snoc_cons.
Qed.

(** The value of the [session_id] key of a callback fragment is the text
    between [#session_id=] and the next [&], urlencoded-decoded. *)
Lemma fragment_carries_decoded (raw more : string) :
  (forall c, In c (list_ascii_of_string raw) -> Ascii.eqb c "&"%char = false) ->
  more = "" \/ (exists t, more = String "&"%char t) ->
  Js.percent_decode raw <> "" ->
  carries_session_id ("#session_id=" ++ raw ++ more) (Js.percent_decode raw).
Proof.
  intros Hraw Hmore Hne.
  split; [simpl; destruct (raw ++ more)%string; reflexivity|].
  split; [|assumption].
  unfold Js.URLSearchParams_get. cbn [Js.substring1 append].
  cbn [Js.split_on Ascii.eqb Bool.eqb append].
  destruct (split_on_first_piece "&"%char raw "session_id=" more Hraw Hmore)
    as [rest Hrest].
  rewrite Hrest. cbn. reflexivity.
Qed.

(** X3: a callback fragment [#session_id=<raw>], alone or followed by
    further [&key=value] pairs, makes the mount effect exchange the
    urlencoded-decoded [<raw>] and call nothing else. *)
Theorem callback_fragment_token_is_decoded :
  forall (bk : Backend) (w : World) (raw more : string),
    hash (location w) = ("#session_id=" ++ raw ++ more)%string ->
    (forall c, In c (list_ascii_of_string raw) -> Ascii.eqb c "&"%char = false) ->
    more = "" \/ (exists t, more = String "&"%char t) ->
    Js.percent_decode raw <> "" ->
    calls (events_of (handleAuth bk) w) =
      [POST_auth_session (Js.percent_decode raw)].
Proof.
  intros bk w raw more Hh Hraw Hmore Hne.
  pose proof (fragment_carries_decoded raw more Hraw Hmore Hne) as Hc.
  rewrite <- Hh in Hc.
  unfold events_of. rewrite (handleAuth_with_token bk w _ Hc).
  rewrite (proj2 (events_of_then_ret (processSessionId bk _) w)).
  apply (processSessionId_calls bk w).
Qed.

Lemma callback_fragment_token_is_decoded_witness :
  calls (events_of (handleAuth Samples.backend_up)
           (Samples.fresh_world "/dashboard" "#session_id=a%2Fb+c&state=xyz")) =
    [POST_auth_session "a/b c"].
Proof.
  apply (callback_fragment_token_is_decoded Samples.backend_up
           (Samples.fresh_world "/dashboard" "#session_id=a%2Fb+c&state=xyz")
           "a%2Fb+c" "&state=xyz").
  - reflexivity.
  - intros c Hc. cbn in Hc.
    repeat (destruct Hc as [<-|Hc]; [reflexivity|]). contradiction.
  - right. eexists. reflexivity.
  - discriminate.
Defined.

End UrlEncoding.

(** ** Signing out and signing in *)
Section SignInOut.
Import Effects Trace AuthContext.



Lemma encode_char_ok_all (c : ascii) : Uri.encode_char_ok c = true.
Proof. destruct c as [[] [] [] [] [] [] [] []]; vm_compute; reflexivity. Qed.

(** How [encodeURIComponent] treats one character, and how the urlencoded
    parser reads the result back. *)
Lemma encode_char_cases (c : ascii) :
  (Uri.is_unreserved c = true /\
   Ascii.eqb c "+"%char = false /\ Ascii.eqb c "%"%char = false /\
   Ascii.eqb c "&"%char = false /\ Ascii.eqb c "="%char = false) \/
  (Uri.is_unreserved c = false /\
   exists a b,
     Js.hex_value (Uri.hex_digit (Nat.div (nat_of_ascii c) 16)) = Some a /\
     Js.hex_value (Uri.hex_digit (Nat.modulo (nat_of_ascii c) 16)) = Some b /\
     ascii_of_nat (Z.to_nat (16 * a + b)) = c /\
     Ascii.eqb (Uri.hex_digit (Nat.div (nat_of_ascii c) 16)) "&"%char = false /\
     Ascii.eqb (Uri.hex_digit (Nat.modulo (nat_of_ascii c) 16)) "&"%char = false /\
     Ascii.eqb (Uri.hex_digit (Nat.div (nat_of_ascii c) 16)) "="%char = false /\
     Ascii.eqb (Uri.hex_digit (Nat.modulo (nat_of_ascii c) 16)) "="%char = false).
Proof.
  pose proof (encode_char_ok_all c) as H. unfold Uri.encode_char_ok in H.
  destruct (Uri.is_unreserved c).
  - left. repeat (apply andb_true_iff in H; destruct H as [H ?]).
    repeat split; now apply negb_true_iff.
  - right. split; [reflexivity|].
    destruct (Js.hex_value _) as [a|]; [|discriminate].
    destruct (Js.hex_value _) as [b|]; [|discriminate].
    exists a, b. repeat (apply andb_true_iff in H; destruct H as [H ?]).
    apply Ascii.eqb_eq in H.
    repeat split; try reflexivity; try assumption; now apply negb_true_iff.
Qed.

(** The urlencoded decoding undoes [encodeURIComponent]. *)
Lemma percent_decode_encodeURIComponent (s : string) :
  Js.percent_decode (Uri.encodeURIComponent s) = s.
Proof.
  induction s as [|c s IH]; [reflexivity|].
  cbn [Uri.encodeURIComponent].
  destruct (encode_char_cases c) as [(Hu & Hplus & Hpct & _) | (Hu & a & b & Ha & Hb & Hc & _)];
    rewrite Hu.
  - cbn [Js.percent_decode]. now rewrite Hplus, Hpct, IH.
  - cbn [Js.percent_decode Ascii.eqb Bool.eqb]. now rewrite Ha, Hb, Hc, IH.
Qed.

(** An encoded component has no [&] and no [=]. *)
Lemma encodeURIComponent_no_separator (s : string) :
  forall c, In c (list_ascii_of_string (Uri.encodeURIComponent s)) ->
    Ascii.eqb c "&"%char = false /\ Ascii.eqb c "="%char = false.
Proof.
  induction s as [|d s IH]; intros c Hc; [contradiction|].
  cbn [Uri.encodeURIComponent] in Hc.
  destruct (encode_char_cases d)
    as [(Hu & _ & _ & Hamp & Heq) | (Hu & a & b & _ & _ & _ & H1 & H2 & H3 & H4)];
    rewrite Hu in Hc; cbn [list_ascii_of_string In] in Hc.
  - destruct Hc as [<-|Hc]; [now split | now apply IH].
  - destruct Hc as [<-|[<-|[<-|Hc]]]; [now split | now split | now split |].
    now apply IH.
Qed.

(** X5: [login] only requests a load of the sign-in address; the query of
    that address, read by the urlencoded parser, gives back the callback
    URL [origin + '/dashboard'] under the key [redirect], whatever
    characters the origin contains. *)
Theorem login_redirect_round_trip :
  forall (origin : string) (w : World),
    exists query,
      events_of (Login.login origin) w =
        [AssignHref ("https://auth.emergentagent.com/?" ++ query)] /\
      href_assigned (location (snd (Login.login origin w))) =
        Some ("https://auth.emergentagent.com/?" ++ query)%string /\
      Js.URLSearchParams_get query "redirect" = Some (origin ++ "/dashboard")%string /\
      auth (snd (Login.login origin w)) = auth w /\
      pathname (location (snd (Login.login origin w))) = pathname (location w).
Proof.
  intros origin w.
  exists ("redirect=" ++ Uri.encodeURIComponent (origin ++ "/dashboard"))%string.
  destruct w as [loc au wz ms lg].
  unfold events_of, Login.login, Login.auth_endpoint. unfold_handler. cbn.
  rewrite skipn_length_app. repeat split.
  unfold Js.URLSearchParams_get.
  cbn [Js.split_on Ascii.eqb Bool.eqb append].
  rewrite split_on_no_sep
    by (intros c Hc; apply (encodeURIComponent_no_separator _ c Hc)).
  cbn. now rewrite percent_decode_encodeURIComponent.
Qed.

End SignInOut.

(** ** Submission beyond the two settled paths *)
Section SubmissionMore.
Import Profile Effects Trace Onboarding.



(** X7: whatever the backend answers, [handleSubmit] returns normally
    with both busy flags cleared, the step, the draft, the session and the
    milestone list untouched, and its backend calls are the save, followed
    by at most one analysis. *)
Theorem handleSubmit_always_settles :
  forall (bk : Backend) (w : World),
    fst (handleSubmit bk w) = Ret tt /\
    wizard (snd (handleSubmit bk w)) =
      mkWizardState (currentStep (wizard w)) false false (formData (wizard w)) /\
    auth (snd (handleSubmit bk w)) = auth w /\
    completedMilestones (snd (handleSubmit bk w)) = completedMilestones w /\
    exists more,
      calls (events_of (handleSubmit bk) w) =
        POST_profile (formData (wizard w)) :: more /\
      (more = [] \/ exists pid, more = [POST_analyze pid]).
Proof.
  intros bk w. destruct w as [loc au wz ms lg].
  destruct (save_profile bk (formData wz)) as [saved|e] eqn:Hs;
    [destruct (analyze bk (id saved)) as [done|e] eqn:Ha|].
  - unfold events_of. unfold_handler. cbn. rewrite Hs. cbn. rewrite Ha. cbn.
    flatten_log. rewrite skipn_length_app. cbn.
    repeat split. eexists. split; [reflexivity|]. right. eexists. reflexivity.
  - unfold events_of. unfold_handler. cbn. rewrite Hs. cbn. rewrite Ha.
    destruct (Api.is_unauthorized e); cbn;
      [destruct (String.eqb (pathname loc) "/"); cbn|];
      flatten_log; rewrite skipn_length_app; cbn;
      repeat split; eexists; (split; [reflexivity|]); right; eexists; reflexivity.
  - unfold events_of. unfold_handler. cbn. rewrite Hs.
    destruct (Api.is_unauthorized e); cbn;
      [destruct (String.eqb (pathname loc) "/"); cbn|];
      flatten_log; rewrite skipn_length_app; cbn;
      repeat split; eexists; (split; [reflexivity|]); left; reflexivity.
Qed.

End SubmissionMore.

(** ** The wizard under clicks and edits *)
Section WizardNavigation.
Import Profile Effects Onboarding WizardUse.

Lemma run_snoc (actions : list Action) (a : Action) (z : WizardState) :
  run (actions ++ [a]) z = act (run actions z) a.
Proof. unfold run. now rewrite fold_left_app. Qed.

(** What one action can do to the step index and to the flags. *)
Lemma act_step (z : WizardState) (a : Action) :
  isSubmitting (act z a) = isSubmitting z /\
  isAnalyzing (act z a) = isAnalyzing z /\
  (currentStep (act z a) = currentStep z \/
   (a = ClickNext /\ currentStep (act z a) = currentStep z + 1 /\
    currentStep z < 5 /\ canProceed z = true /\ isAnalyzing z = false) \/
   (a = ClickPrevious /\ currentStep (act z a) = currentStep z - 1 /\
    currentStep z <> 0 /\ isAnalyzing z = false)).
Proof.
  destruct a as [e| |]; cbn [act].
  - split; [reflexivity|]. split; [reflexivity|]. now left.
  - unfold render. destruct (isAnalyzing z) eqn:Han;
      [split; [reflexivity|]; split; [assumption|]; now left|].
    destruct (currentStep z =? 0) eqn:E0;
      [split; [reflexivity|]; split; [assumption|]; now left|].
    apply Z.eqb_neq in E0.
    split; [reflexivity|]. split; [assumption|].
    right. right. repeat split. assumption.
  - unfold render. destruct (isAnalyzing z) eqn:Han;
      [split; [reflexivity|]; split; [assumption|]; now left|].
    change (STEPS_length - 1) with 5.
    destruct (currentStep z <? 5) eqn:E5;
      [|split; [reflexivity|]; split; [assumption|]; now left].
    apply Z.ltb_lt in E5.
    destruct (canProceed z) eqn:Ec; cbn [negb];
      [|split; [reflexivity|]; split; [assumption|]; now left].
    split; [reflexivity|]. split; [assumption|].
    right. left. repeat split; assumption.
Qed.

Lemma act_keeps_draft_on_click (z : WizardState) :
  formData (act z ClickNext) = formData z /\
  formData (act z ClickPrevious) = formData z.
Proof.
  cbn [act]. split.
  - destruct (render z) as [|p [[]|d]]; reflexivity.
  - destruct (render z) as [|[] f]; reflexivity.
Qed.

(** X8: from the initial wizard, whatever the user types and clicks, the
    step index stays between 0 and 5 (so a step is always on screen and
    the gate never falls to its default case), and neither button changes
    the draft. *)
Theorem wizard_step_stays_in_range :
  (forall actions : list Action,
     0 <= currentStep (run actions Onboarding.initial) <= 5 /\
     isSubmitting (run actions Onboarding.initial) = false /\
     isAnalyzing (run actions Onboarding.initial) = false) /\
  (forall z : WizardState,
     formData (act z ClickNext) = formData z /\
     formData (act z ClickPrevious) = formData z).
Proof.
  split; [|apply act_keeps_draft_on_click].
  intros actions. induction actions as [|a actions IH] using rev_ind.
  - cbn. repeat split; lia.
  - rewrite run_snoc.
    destruct IH as (Hr & Hs & Ha).
    destruct (act_step (run actions Onboarding.initial) a) as (Hs' & Ha' & Hstep).
    rewrite Hs', Ha'. repeat split; try assumption;
      destruct Hstep as [H|[(_ & H & Hlt & _)|(_ & H & Hne & _)]]; lia.
Qed.

(** X9: no step is skipped: when the wizard, driven from its initial
    state, stands at step [k], then for each earlier step [j] the user has
    clicked "Next" at a moment when the wizard stood at [j] and the gate
    of [j] held. *)
Theorem no_step_is_skipped :
  forall (actions : list Action) (j : Z),
    0 <= j < currentStep (run actions Onboarding.initial) ->
    exists before after,
      actions = (before ++ ClickNext :: after)%list /\
      currentStep (run before Onboarding.initial) = j /\
      canProceed (run before Onboarding.initial) = true.
Proof.
  intros actions. induction actions as [|a actions IH] using rev_ind; intros j Hj.
  - cbn in Hj. lia.
  - rewrite run_snoc in Hj.
    destruct (act_step (run actions Onboarding.initial) a) as (_ & _ & Hstep).
    assert (Hext : 0 <= j < currentStep (run actions Onboarding.initial) ->
              exists before after,
                (actions ++ [a])%list = (before ++ ClickNext :: after)%list /\
                currentStep (run before Onboarding.initial) = j /\
                canProceed (run before Onboarding.initial) = true).
    { intros H. destruct (IH j H) as (before & after & -> & Hb & Hc).
      exists before, (after ++ [a])%list. rewrite <- app_assoc. now repeat split. }
    destruct Hstep as [H|[(-> & H & Hlt & Hc & _)|(_ & H & _)]].
    + apply Hext. lia.
    + destruct (Z.eq_dec j (currentStep (run actions Onboarding.initial))) as [->|Hne].
      * exists actions, []. now repeat split.
      * apply Hext. lia.
    + apply Hext. lia.
Qed.

Lemma no_step_is_skipped_witness :
  exists before after,
    [DoEdit (Update (U_education "BSc")); DoEdit (Update (U_current_role "Engineer"));
     ClickNext] = (before ++ ClickNext :: after)%list /\
    currentStep (run before Onboarding.initial) = 0 /\
    canProceed (run before Onboarding.initial) = true.
Proof.
  apply (no_step_is_skipped
           [DoEdit (Update (U_education "BSc"));
            DoEdit (Update (U_current_role "Engineer")); ClickNext] 0).
  cbn. lia.
Defined.

End WizardNavigation.

(** ** The two numeric inputs of the wizard *)
Section NumericInputs.
Import Profile Effects Onboarding.

Lemma digit_value_nonneg (c : ascii) (d : Z) :
  Js.digit_value c = Some d -> 0 <= d.
Proof.
  unfold Js.digit_value. cbv zeta. intros H.
  repeat match type of H with
         | (if ?b then _ else _) = _ =>
             let E := fresh "E" in destruct b eqn:E
         end;
    try discriminate; injection H as <-;
    match goal with E : (_ && _)%bool = true |- _ =>
      apply andb_true_iff in E; destruct E as [E _]; apply Z.leb_le in E
    end; lia.
Qed.

Lemma read_digits_nonneg (radix : Z) (s : string) :
  0 < radix ->
  forall acc n,
    (forall a, acc = Some a -> 0 <= a) ->
    Js.read_digits radix acc s = Some n -> 0 <= n.
Proof.
  intros Hr. induction s as [|c s IH]; intros acc n Hacc H; cbn in H.
  - now apply Hacc.
  - destruct (Js.digit_value c) as [d|] eqn:Ed; [|now apply Hacc].
    destruct (d <? radix); [|now apply Hacc].
    apply digit_value_nonneg in Ed.
    refine (IH _ n _ H).
    intros a Ha. injection Ha as <-.
    destruct acc as [a0|]; [|assumption].
    specialize (Hacc a0 eq_refl). nia.
Qed.

(** The sign of the text is read off its first character. *)
Lemma sign_by_first_char (c : ascii) (rest : string) :
  match String c rest with
  | String "-" r => (-1, r)
  | String "+" r => (1, r)
  | _ => (1, String c rest)
  end =
  if Ascii.eqb c "-"%char then (-1, rest)
  else if Ascii.eqb c "+"%char then (1, rest)
  else (1, String c rest).
Proof. destruct c as [[] [] [] [] [] [] [] []]; reflexivity. Qed.

(** The radix is 16 after a [0x] prefix and 10 otherwise. *)
Lemma radix_by_prefix (s : string) :
  exists radix s',
    match s with
    | String "0" (String "x" rest) => (16, rest)
    | String "0" (String "X" rest) => (16, rest)
    | _ => (10, s)
    end = (radix, s') /\ 0 < radix.
Proof.
  destruct s as [|c s]; [eexists; eexists; split; [reflexivity|lia]|].
  destruct c as [[] [] [] [] [] [] [] []];
    try (eexists; eexists; split; [reflexivity|lia]).
  destruct s as [|c s]; [eexists; eexists; split; [reflexivity|lia]|].
  destruct c as [[] [] [] [] [] [] [] []];
    eexists; eexists; (split; [reflexivity|lia]).
Qed.

(** [parseInt] gives a non-negative integer, negated exactly when the
    text, after its leading blanks, begins with a minus sign. *)
Lemma parseInt_shape (input : string) (n : Z) :
  Js.parseInt input = Some n ->
  exists m, 0 <= m /\
    (n = m \/ (n = - m /\ exists rest, Js.trim_start input = String "-"%char rest)).
Proof.
  unfold Js.parseInt.
  destruct (Js.trim_start input) as [|c s1] eqn:Et; [cbn; discriminate|].
  rewrite sign_by_first_char.
  assert (Hgen : forall sign s2,
    (let '(radix, s) :=
       match s2 with
       | String "0" (String "x" rest) => (16, rest)
       | String "0" (String "X" rest) => (16, rest)
       | _ => (10, s2)
       end in
     match Js.read_digits radix None s with
     | Some n0 => Some (sign * n0)
     | None => None
     end) = Some n -> exists m, 0 <= m /\ n = sign * m).
  { intros sign s2. destruct (radix_by_prefix s2) as (radix & s' & -> & Hr).
    destruct (Js.read_digits radix None s') as [m|] eqn:Em; [|discriminate].
    intros H. injection H as <-. exists m. split; [|reflexivity].
    apply (read_digits_nonneg radix s' Hr None m); [discriminate|assumption]. }
  destruct (Ascii.eqb c "-"%char) eqn:Eminus.
  - apply Ascii.eqb_eq in Eminus. subst c. intros H.
    destruct (Hgen (-1) s1 H) as (m & Hm & ->).
    exists m. split; [assumption|]. right. split; [lia|]. now exists s1.
  - destruct (Ascii.eqb c "+"%char); intros H;
      [destruct (Hgen 1 s1 H) as (m & Hm & ->)
      |destruct (Hgen 1 (String c s1) H) as (m & Hm & ->)];
      exists m; (split; [assumption|]); left; lia.
Qed.

Lemma parseInt_or_nonneg (input : string) (dflt : Z) :
  0 <= dflt ->
  (forall rest, Js.trim_start input <> String "-"%char rest) ->
  0 <= Js.parseInt_or input dflt.
Proof.
  intros Hd Hno. unfold Js.parseInt_or.
  destruct (Js.parseInt input) as [n|] eqn:E; [|assumption].
  destruct (Js.truthy_num n); [|assumption].
  destruct (parseInt_shape input n E) as (m & Hm & [->|(-> & rest & Hr)]).
  - assumption.
  - exfalso. exact (Hno rest Hr).
Qed.

Lemma parseInt_or_nonzero (input : string) (dflt : Z) :
  dflt <> 0 -> Js.parseInt_or input dflt <> 0.
Proof.
  intros Hd. unfold Js.parseInt_or, Js.truthy_num.
  destruct (Js.parseInt input) as [n|]; [|assumption].
  destruct (n =? 0) eqn:E; cbn; [assumption|]. now apply Z.eqb_neq.
Qed.

(** X10: an edit of the years-of-experience field changes that field
    only, and stores a non-negative integer unless the text, after its
    leading blanks, begins with a minus sign. *)
Theorem years_experience_nonnegative_without_minus :
  forall (value : string) (fd : FormData),
    set_field (U_years_experience (years_experience fd))
      (onChange_years_experience value fd) = fd /\
    ((forall rest, Js.trim_start value <> String "-"%char rest) ->
     0 <= years_experience (onChange_years_experience value fd)).
Proof.
  intros value fd. split.
  - destruct fd. reflexivity.
  - intros Hno. destruct fd. cbn. apply parseInt_or_nonneg; [lia|assumption].
Qed.

Lemma years_experience_nonnegative_without_minus_witness :
  (forall rest, Js.trim_start " 42abc" <> String "-"%char rest) /\
  0 <= years_experience (onChange_years_experience " 42abc" Profile.initial).
Proof.
  assert (H : forall rest, Js.trim_start " 42abc" <> String "-"%char rest)
    by (intros rest; discriminate).
  split; [exact H|].
  exact (proj2 (years_experience_nonnegative_without_minus " 42abc" Profile.initial) H).
Defined.

(** X11: an edit of the hours-per-week field never stores zero (a blank,
    unparsable or zero entry becomes 1), and unless the text begins with
    a minus sign the Constraints step can be left right after the edit. *)
Theorem hours_per_week_edit_keeps_gate :
  forall (value : string) (z : WizardState),
    hours_per_week (onChange_hours_per_week value (formData z)) <> 0 /\
    ((forall rest, Js.trim_start value <> String "-"%char rest) ->
     canProceed (mkWizardState 3 (isSubmitting z) (isAnalyzing z)
                   (onChange_hours_per_week value (formData z))) = true).
Proof.
  intros value z. destruct (formData z) eqn:Efd. cbn. split.
  - apply parseInt_or_nonzero. discriminate.
  - intros Hno. apply Z.ltb_lt.
    pose proof (parseInt_or_nonneg value 1 ltac:(lia) Hno).
    pose proof (parseInt_or_nonzero value 1 ltac:(discriminate)). lia.
Qed.

Lemma hours_per_week_edit_keeps_gate_witness :
  (forall rest, Js.trim_start "" <> String "-"%char rest) /\
  canProceed (mkWizardState 3 false false
                (onChange_hours_per_week "" Profile.initial)) = true.
Proof.
  assert (H : forall rest, Js.trim_start "" <> String "-"%char rest)
    by (intros rest; discriminate).
  split; [exact H|].
  exact (proj2 (hours_per_week_edit_keeps_gate "" Onboarding.initial) H).
Defined.

End NumericInputs.

(** ** The dashboard *)
Section DashboardProps.
Import Effects Trace.

Lemma filter_other_ids (id0 : string) (l : list Dashboard.ReportSummary) :
  (forall x, In x l -> Dashboard.id x <> id0) ->
  filter (fun r => negb (String.eqb (Dashboard.id r) id0)) l = l.
Proof.
  induction l as [|a l IH]; intros H; [reflexivity|]. cbn.
  assert (Ha : String.eqb (Dashboard.id a) id0 = false)
    by (apply String.eqb_neq, H; now left).
  rewrite Ha. cbn. f_equal. apply IH. intros x Hx. apply H. now right.
Qed.

Lemma handleDelete_fulfilled (reply : string -> Reply unit) (id0 : string)
    (st : Dashboard.State) (w : World) :
  reply id0 = Fulfilled tt ->
  Dashboard.handleDelete reply id0 st w =
    (Ret (Dashboard.mkState
            (filter (fun r => negb (String.eqb (Dashboard.id r) id0))
                    (Dashboard.reports st))
            (Dashboard.hasProfile st) (Dashboard.loading st) None),
     mkWorld (location w) (auth w) (wizard w) (completedMilestones w)
             (log w ++ [Call (DELETE_report id0); ToastSuccess "Report deleted"])).
Proof.
  intros H. destruct w as [loc au wz ms lg]. unfold Dashboard.handleDelete,
    Dashboard.deleteReport. unfold_handler. cbn. rewrite H. cbn.
  flatten_log. reflexivity.
Qed.

Lemma handleDelete_rejected (reply : string -> Reply unit) (id0 : string)
    (st : Dashboard.State) (w : World) (e : AxiosError) :
  reply id0 = Rejected e ->
  fst (Dashboard.handleDelete reply id0 st w) =
    Ret (Dashboard.mkState (Dashboard.reports st) (Dashboard.hasProfile st)
           (Dashboard.loading st) None) /\
  log (snd (Dashboard.handleDelete reply id0 st w)) =
    (log w ++ [Call (DELETE_report id0)] ++ interceptor_events w e ++
     [ToastError "Failed to delete report"])%list.
Proof.
  intros H. destruct w as [loc au wz ms lg]. unfold interceptor_events.
  unfold Dashboard.handleDelete, Dashboard.deleteReport. unfold_handler.
  cbn. rewrite H.
  destruct (Api.is_unauthorized e); cbn;
    [destruct (String.eqb (pathname loc) "/"); cbn|];
    flatten_log; split; reflexivity.
Qed.

(** X12: a confirmed deletion that the backend accepts removes from the
    displayed list the entry with that identifier and nothing else: the
    entries before and after it keep their order and content, and a
    success notice is shown; the confirmation dialog is closed. *)
Theorem delete_removes_exactly_that_report :
  forall (reply : string -> Reply unit) (st : Dashboard.State) (w : World)
         (before after : list Dashboard.ReportSummary) (r : Dashboard.ReportSummary),
    Dashboard.reports st = (before ++ r :: after)%list ->
    (forall x, In x (before ++ after) -> Dashboard.id x <> Dashboard.id r) ->
    reply (Dashboard.id r) = Fulfilled tt ->
    fst (Dashboard.handleDelete reply (Dashboard.id r) st w) =
      Ret (Dashboard.mkState (before ++ after) (Dashboard.hasProfile st)
             (Dashboard.loading st) None) /\
    events_of (Dashboard.handleDelete reply (Dashboard.id r) st) w =
      [Call (DELETE_report (Dashboard.id r)); ToastSuccess "Report deleted"].
Proof.
  intros reply st w before after r Hrs Hids Hrep.
  unfold events_of. rewrite (handleDelete_fulfilled reply _ st w Hrep). cbn.
  rewrite skipn_length_app. split; [|reflexivity].
  rewrite Hrs, filter_app. cbn. rewrite String.eqb_refl. cbn.
  rewrite !filter_other_ids; [reflexivity| |];
    intros x Hx; apply Hids, in_or_app; auto.
Qed.

Lemma delete_removes_exactly_that_report_witness :
  fst (Dashboard.handleDelete (fun _ => Fulfilled tt) "r2"
         (Dashboard.mkState
            [Dashboard.mkReportSummary "r1" "Developer Tools" "2025-01-10" 82;
             Dashboard.mkReportSummary "r2" "Fintech" "2025-02-01" 64;
             Dashboard.mkReportSummary "r3" "EdTech" "2025-03-05" 40]
            true false (Some "r2"))
         (Samples.signed_in_world "/dashboard" Onboarding.initial [])) =
    Ret (Dashboard.mkState
           [Dashboard.mkReportSummary "r1" "Developer Tools" "2025-01-10" 82;
            Dashboard.mkReportSummary "r3" "EdTech" "2025-03-05" 40]
           true false None).
Proof.
  refine (proj1 (delete_removes_exactly_that_report (fun _ => Fulfilled tt)
           (Dashboard.mkState
              [Dashboard.mkReportSummary "r1" "Developer Tools" "2025-01-10" 82;
               Dashboard.mkReportSummary "r2" "Fintech" "2025-02-01" 64;
               Dashboard.mkReportSummary "r3" "EdTech" "2025-03-05" 40]
              true false (Some "r2"))
           (Samples.signed_in_world "/dashboard" Onboarding.initial [])
           [Dashboard.mkReportSummary "r1" "Developer Tools" "2025-01-10" 82]
           [Dashboard.mkReportSummary "r3" "EdTech" "2025-03-05" 40]
           (Dashboard.mkReportSummary "r2" "Fintech" "2025-02-01" 64)
           eq_refl _ eq_refl)).
  intros x [<-|[<-|[]]]; discriminate.
Defined.

(** X13: a deletion the backend rejects leaves the displayed list as it
    was and shows the failure notice; accepted or rejected, [handleDelete]
    makes that one backend call, closes the confirmation dialog and
    touches no other state of the page. *)
Theorem delete_failure_keeps_list :
  forall (reply : string -> Reply unit) (id0 : string) (st : Dashboard.State)
         (w : World),
    (exists st',
       fst (Dashboard.handleDelete reply id0 st w) = Ret st' /\
       Dashboard.dialog_open st' = false /\
       Dashboard.hasProfile st' = Dashboard.hasProfile st /\
       Dashboard.loading st' = Dashboard.loading st /\
       (forall e, reply id0 = Rejected e ->
          Dashboard.reports st' = Dashboard.reports st)) /\
    calls (events_of (Dashboard.handleDelete reply id0 st) w) =
      [DELETE_report id0] /\
    (forall e, reply id0 = Rejected e ->
       In (ToastError "Failed to delete report")
          (events_of (Dashboard.handleDelete reply id0 st) w) /\
       ~ In (ToastSuccess "Report deleted")
          (events_of (Dashboard.handleDelete reply id0 st) w)).
Proof.
  intros reply id0 st w.
  destruct (reply id0) as [[]|e] eqn:E.
  - unfold events_of. rewrite (handleDelete_fulfilled reply id0 st w E). cbn.
    rewrite skipn_length_app.
    split.
    { eexists. do 4 (split; [reflexivity|]). intros e He. discriminate. }
    split; [reflexivity|]. intros e He. discriminate.
  - destruct (handleDelete_rejected reply id0 st w e E) as (Hst & Hlog).
    apply events_of_log in Hlog. rewrite Hlog, Hst.
    split.
    { eexists. do 4 (split; [reflexivity|]). intros e' _. reflexivity. }
    split.
    + cbn [app calls]. rewrite calls_app, calls_interceptor_events. reflexivity.
    + intros e' _. split.
      * cbn [app]. right. apply in_or_app. right. now left.
      * intros Hin. cbn [app In] in Hin. destruct Hin as [Hin|Hin]; [discriminate|].
        apply in_app_or in Hin. destruct Hin as [Hin|Hin].
        -- apply In_interceptor_events in Hin. discriminate.
        -- cbn [In] in Hin. intuition discriminate.
Qed.

Lemma delete_failure_keeps_list_witness :
  (fun _ : string => @Rejected unit Samples.server_error) "r1" =
    Rejected Samples.server_error /\
  In (ToastError "Failed to delete report")
     (events_of (Dashboard.handleDelete (fun _ => Rejected Samples.server_error)
                   "r1" Dashboard.initial)
        (Samples.signed_in_world "/dashboard" Onboarding.initial [])).
Proof.
  split; [reflexivity|].
  exact (proj1 (proj2 (proj2 (delete_failure_keeps_list
           (fun _ => Rejected Samples.server_error) "r1" Dashboard.initial
           (Samples.signed_in_world "/dashboard" Onboarding.initial [])))
           Samples.server_error eq_refl)).
Defined.

(** X14: the dashboard badge and the report view put a score in the same
    band: green with [score-high] from 75 up, amber with [score-medium]
    from 50 to 74, red with [score-low] below 50. *)
Theorem score_bands_agree :
  forall score : Z,
    (75 <= score /\
     Dashboard.getScoreColor score = "bg-green-100 text-green-700" /\
     ResultsView.getScoreColor score = "score-high") \/
    (50 <= score < 75 /\
     Dashboard.getScoreColor score = "bg-amber-100 text-amber-700" /\
     ResultsView.getScoreColor score = "score-medium") \/
    (score < 50 /\
     Dashboard.getScoreColor score = "bg-red-100 text-red-700" /\
     ResultsView.getScoreColor score = "score-low").
Proof.
  intros score. unfold Dashboard.getScoreColor, ResultsView.getScoreColor.
  destruct (75 <=? score) eqn:E75; [left; apply Z.leb_le in E75; auto|].
  apply Z.leb_gt in E75.
  destruct (50 <=? score) eqn:E50.
  - right; left. apply Z.leb_le in E50. repeat split; lia.
  - right; right. apply Z.leb_gt in E50. auto.
Qed.

End DashboardProps.

(** ** The milestone checklist beyond one click *)
Section Checklist.
Import Effects Trace Results.

Lemma uint_digits_no_dash (d : Decimal.uint) :
  forall c, In c (list_ascii_of_string (DecimalString.NilEmpty.string_of_uint d)) ->
    Ascii.eqb c "-"%char = false.
Proof.
  induction d; cbn; intros c Hc; try contradiction;
    destruct Hc as [<-|Hc]; try reflexivity; now apply IHd.
Qed.

Lemma string_of_uint_inj (d d' : Decimal.uint) :
  DecimalString.NilEmpty.string_of_uint d = DecimalString.NilEmpty.string_of_uint d' ->
  d = d'.
Proof.
  intros H.
  pose proof (DecimalString.NilEmpty.usu d) as H1.
  pose proof (DecimalString.NilEmpty.usu d') as H2.
  rewrite H in H1. rewrite H1 in H2. now injection H2.
Qed.

Lemma string_of_index_inj (n m : nat) :
  Uri.string_of_index n = Uri.string_of_index m -> n = m.
Proof.
  unfold Uri.string_of_index. intros H.
  apply DecimalNat.Unsigned.to_uint_inj. now apply string_of_uint_inj.
Qed.

Lemma append_dash_inj (s : string) :
  forall s' t t',
    (forall c, In c (list_ascii_of_string s) -> Ascii.eqb c "-"%char = false) ->
    (forall c, In c (list_ascii_of_string s') -> Ascii.eqb c "-"%char = false) ->
    (s ++ "-" ++ t)%string = (s' ++ "-" ++ t')%string ->
    s = s' /\ t = t'.
Proof.
  induction s as [|a s IH]; intros [|a' s'] t t' Hs Hs' H; cbn in H.
  - injection H as ->. now split.
  - injection H as <- _. specialize (Hs' "-"%char (or_introl eq_refl)). discriminate.
  - injection H as -> _. specialize (Hs "-"%char (or_introl eq_refl)). discriminate.
  - injection H as -> H.
    destruct (IH s' t t') as [-> ->]; try assumption; try now split.
    + intros c Hc. apply Hs. now right.
    + intros c Hc. apply Hs'. now right.
Qed.

(** Two checkboxes never share a key. *)
Lemma milestone_key_inj (p i p' i' : nat) :
  ResultsView.milestone_key p i = ResultsView.milestone_key p' i' ->
  p = p' /\ i = i'.
Proof.
  unfold ResultsView.milestone_key, Uri.string_of_index. intros H.
  apply append_dash_inj in H; try apply uint_digits_no_dash.
  destruct H as [H1 H2]. split; now apply string_of_index_inj.
Qed.

Lemma newMilestones_membership (completed : list string) (milestone x : string) :
  Js.includes x (newMilestones completed milestone) =
  if String.eqb x milestone then negb (Js.includes milestone completed)
  else Js.includes x completed.
Proof.
  unfold newMilestones. destruct (Js.includes milestone completed) eqn:E.
  - rewrite includes_filter_neq. now destruct (String.eqb x milestone).
  - rewrite includes_app. simpl. rewrite orb_false_r.
    destruct (String.eqb x milestone) eqn:Ex.
    + apply String.eqb_eq in Ex. subst. now rewrite E.
    + apply orb_false_r.
Qed.

Lemma newMilestones_NoDup (completed : list string) (milestone : string) :
  NoDup completed -> NoDup (newMilestones completed milestone).
Proof.
  intros H. unfold newMilestones.
  destruct (Js.includes milestone completed) eqn:E.
  - now apply NoDup_filter_neq.
  - apply NoDup_snoc; [assumption | now apply includes_false_not_In].
Qed.

(** The list a click leaves, whatever the backend answers. *)
Lemma toggleMilestone_state (bk : Backend) (reportId milestone : string) (w : World) :
  completedMilestones (snd (toggleMilestone bk reportId milestone w)) =
    newMilestones (completedMilestones w) milestone /\
  calls (events_of (toggleMilestone bk reportId milestone) w) =
    [PATCH_report_milestones reportId
       (newMilestones (completedMilestones w) milestone)].
Proof.
  destruct (update_milestones bk reportId
              (newMilestones (completedMilestones w) milestone))
    as [[]|e] eqn:E.
  - unfold events_of. rewrite (toggleMilestone_fulfilled bk w reportId milestone E).
    cbn. rewrite skipn_length_app. split; reflexivity.
  - destruct (toggleMilestone_rejected bk w reportId milestone e E)
      as (_ & Hm & Hlog).
    apply events_of_log in Hlog. rewrite Hlog, Hm. cbn [app calls].
    rewrite calls_app, calls_interceptor_events. split; reflexivity.
Qed.

(** X15: every action of the roadmap has its own checkbox key, so a click
    on one checkbox flips that checkbox and leaves the checked state of
    every other one as it was. *)
Theorem checkbox_click_flips_only_its_own :
  forall (bk : Backend) (reportId : string) (w : World) (p i p' i' : nat),
    ResultsView.checked
      (completedMilestones
         (snd (toggleMilestone bk reportId (ResultsView.milestone_key p i) w)))
      p i = negb (ResultsView.checked (completedMilestones w) p i) /\
    ((p, i) <> (p', i') ->
     ResultsView.checked
       (completedMilestones
          (snd (toggleMilestone bk reportId (ResultsView.milestone_key p i) w)))
       p' i' = ResultsView.checked (completedMilestones w) p' i').
Proof.
  intros bk reportId w p i p' i'. unfold ResultsView.checked.
  rewrite (proj1 (toggleMilestone_state bk reportId _ w)).
  rewrite !newMilestones_membership, String.eqb_refl.
  split; [reflexivity|]. intros Hne.
  destruct (String.eqb (ResultsView.milestone_key p' i')
                       (ResultsView.milestone_key p i)) eqn:E; [|reflexivity].
  apply String.eqb_eq, milestone_key_inj in E. destruct E as [-> ->].
  now contradiction Hne.
Qed.

Lemma checkbox_click_flips_only_its_own_witness :
  (0%nat, 1%nat) <> (1%nat, 0%nat) /\
  ResultsView.checked
    (completedMilestones
       (snd (toggleMilestone Samples.backend_up "r1" (ResultsView.milestone_key 0 1)
               (Samples.signed_in_world "/results/r1" Onboarding.initial ["1-0"]))))
    1 0 = true.
Proof.
  assert (H : (0%nat, 1%nat) <> (1%nat, 0%nat)) by discriminate.
  split; [exact H|].
  exact (proj2 (checkbox_click_flips_only_its_own Samples.backend_up "r1"
                  (Samples.signed_in_world "/results/r1" Onboarding.initial ["1-0"])
                  0 1 1 0) H).
Defined.

(** X16: whatever the backend answers, a sequence of clicks keeps a
    duplicate-free milestone list duplicate-free, each click sends the
    whole new list in one update call, and two clicks on the same
    milestone leave every milestone's membership as it was. *)
Theorem milestone_list_stays_duplicate_free :
  forall (bk : Backend) (reportId : string),
    (forall (clicks : list string) (w : World),
       NoDup (completedMilestones w) ->
       NoDup (completedMilestones
                (fold_left (fun w0 m => snd (toggleMilestone bk reportId m w0))
                           clicks w))) /\
    (forall (m : string) (w : World),
       calls (events_of (toggleMilestone bk reportId m) w) =
         [PATCH_report_milestones reportId
            (completedMilestones (snd (toggleMilestone bk reportId m w)))]) /\
    (forall (m x : string) (w : World),
       Js.includes x
         (completedMilestones
            (snd (toggleMilestone bk reportId m
                    (snd (toggleMilestone bk reportId m w))))) =
       Js.includes x (completedMilestones w)).
Proof.
  intros bk reportId. split; [|split].
  - intros clicks. induction clicks as [|m clicks IH]; intros w H; [assumption|].
    cbn [fold_left]. apply IH.
    rewrite (proj1 (toggleMilestone_state bk reportId m w)).
    now apply newMilestones_NoDup.
  - intros m w. destruct (toggleMilestone_state bk reportId m w) as [-> ->].
    reflexivity.
  - intros m x w. rewrite !(proj1 (toggleMilestone_state bk reportId m _)).
    rewrite !newMilestones_membership.
    destruct (String.eqb x m) eqn:E; [|reflexivity].
    rewrite String.eqb_refl. apply String.eqb_eq in E. subst x.
    apply negb_involutive.
Qed.

Lemma milestone_list_stays_duplicate_free_witness :
  NoDup (completedMilestones
           (Samples.signed_in_world "/results/r1" Onboarding.initial ["0-0"])) /\
  NoDup (completedMilestones
           (fold_left
              (fun w0 m => snd (toggleMilestone
                                  (Samples.backend_failing Samples.server_error)
                                  "r1" m w0))
              ["0-1"; "0-0"; "0-1"; "0-1"]
              (Samples.signed_in_world "/results/r1" Onboarding.initial ["0-0"]))).
Proof.
  assert (H : NoDup (completedMilestones
                (Samples.signed_in_world "/results/r1" Onboarding.initial ["0-0"])))
    by (repeat constructor; intros []).
  split; [exact H|].
  exact (proj1 (milestone_list_stays_duplicate_free
                  (Samples.backend_failing Samples.server_error) "r1")
           ["0-1"; "0-0"; "0-1"; "0-1"]
           (Samples.signed_in_world "/results/r1" Onboarding.initial ["0-0"]) H).
Defined.

End Checklist.

(** ** Loading a report *)
Section ReportLoading.
Import Effects Trace.

Lemma fetchReport_fulfilled (reply : string -> Reply ResultsView.Report)
    (reportId : string) (st : ResultsView.State) (w : World)
    (data : ResultsView.Report) :
  reply reportId = Fulfilled data ->
  ResultsView.fetchReport reply reportId st w =
    (Ret (ResultsView.mkState (Some data) false),
     mkWorld (location w) (auth w) (wizard w)
       (match ResultsView.milestones_completed data with
        | Some ms => ms
        | None => []
        end)
       (log w ++
        [Call (GET_report reportId);
         SetCompletedMilestones
           (match ResultsView.milestones_completed data with
            | Some ms => ms
            | None => []
            end)])).
Proof.
  intros H. destruct w as [loc au wz ms lg].
  unfold ResultsView.fetchReport. unfold_handler. cbn. rewrite H. cbn.
  flatten_log. reflexivity.
Qed.

(** X17: when the report is fetched, the page holds it with [loading]
    cleared, the milestone list is the one the backend sent (empty when
    the report carries none), nothing navigates, and the first click on a
    checkbox afterwards sends that list with the clicked milestone
    flipped. *)
Theorem loaded_report_seeds_checklist :
  forall (reply : string -> Reply ResultsView.Report) (reportId : string)
         (st : ResultsView.State) (w : World) (data : ResultsView.Report),
    reply reportId = Fulfilled data ->
    fst (ResultsView.fetchReport reply reportId st w) =
      Ret (ResultsView.mkState (Some data) false) /\
    completedMilestones (snd (ResultsView.fetchReport reply reportId st w)) =
      match ResultsView.milestones_completed data with
      | Some ms => ms
      | None => []
      end /\
    calls (events_of (ResultsView.fetchReport reply reportId st) w) =
      [GET_report reportId] /\
    location (snd (ResultsView.fetchReport reply reportId st w)) = location w /\
    (forall (bk : Backend) (m : string),
       calls (events_of (Results.toggleMilestone bk reportId m)
                (snd (ResultsView.fetchReport reply reportId st w))) =
       [PATCH_report_milestones reportId
          (Results.newMilestones
             (match ResultsView.milestones_completed data with
              | Some ms => ms
              | None => []
              end) m)]).
Proof.
  intros reply reportId st w data H.
  unfold events_of at 1. rewrite (fetchReport_fulfilled reply reportId st w data H).
  cbn [fst snd completedMilestones log location]. rewrite skipn_length_app.
  do 4 (split; [reflexivity|]).
  intros bk m.
  match goal with |- context [events_of _ ?w0] =>
    exact (proj2 (toggleMilestone_state bk reportId m w0))
  end.
Qed.

Lemma loaded_report_seeds_checklist_witness :
  completedMilestones
    (snd (ResultsView.fetchReport
            (fun rid => Fulfilled (ResultsView.mkReport rid None)) "r1"
            ResultsView.initial
            (Samples.signed_in_world "/results/r1" Onboarding.initial ["9-9"]))) = [].
Proof.
  exact (proj1 (proj2 (loaded_report_seeds_checklist
           (fun rid => Fulfilled (ResultsView.mkReport rid None)) "r1"
           ResultsView.initial
           (Samples.signed_in_world "/results/r1" Onboarding.initial ["9-9"])
           (ResultsView.mkReport "r1" None) eq_refl))).
Defined.



End ReportLoading.

(** ** Redirects between the public and the protected views *)
Section Redirects.
Import Effects Trace AuthContext App.

(** X19: the landing page and the protected routes never bounce a visitor
    back and forth.  While bootstrapping neither redirects and both show
    a loading screen; an authenticated visitor of the landing page is sent
    to [/dashboard], which then renders the dashboard; an anonymous
    visitor of a protected route is sent to [/], where the landing page
    renders and does not redirect. *)
Theorem no_redirect_loop :
  forall (w : World),
    (session_state (auth w) = Bootstrapping ->
       events_of Landing.redirect_effect w = [] /\
       Landing.render (auth w) = Landing.LoadingScreen /\
       forall page, ProtectedRoute (auth w) (Page page) = LoadingIndicator) /\
    (forall u, session_state (auth w) = Authenticated u ->
       events_of Landing.redirect_effect w = [Navigate "/dashboard"] /\
       pathname (location (snd (Landing.redirect_effect w))) = "/dashboard" /\
       auth (snd (Landing.redirect_effect w)) = auth w /\
       forall page, ProtectedRoute (auth w) (Page page) = Page page) /\
    (session_state (auth w) = Anonymous ->
       (forall page, ProtectedRoute (auth w) (Page page) = NavigateTo "/" true) /\
       events_of Landing.redirect_effect w = [] /\
       Landing.render (auth w) = Landing.LandingContent).
Proof.
  intros [loc [u l] wz ms lg]. unfold session_state, events_of,
    Landing.redirect_effect, Landing.render, ProtectedRoute. unfold_handler. cbn.
  destruct l; [|destruct u as [u|]]; cbn; (split; [|split]); intros;
    try discriminate.
  - destruct u; rewrite ?firstn_all, ?skipn_all; cbn; repeat split;
      rewrite <- (app_nil_r lg) at 2; apply skipn_length_app.
  - flatten_log. rewrite skipn_length_app. repeat split.
  - repeat split. rewrite <- (app_nil_r lg) at 2. apply skipn_length_app.
Qed.

Lemma no_redirect_loop_witness :
  session_state (auth (Samples.signed_in_world "/" Onboarding.initial [])) =
    Authenticated Samples.alice /\
  events_of Landing.redirect_effect
    (Samples.signed_in_world "/" Onboarding.initial []) = [Navigate "/dashboard"] /\
  session_state (auth (Samples.fresh_world "/dashboard" "")) = Bootstrapping /\
  events_of Landing.redirect_effect (Samples.fresh_world "/dashboard" "") = [].
Proof.
  split; [reflexivity|].
  split; [exact (proj1 (proj1 (proj2 (no_redirect_loop
            (Samples.signed_in_world "/" Onboarding.initial []))) Samples.alice eq_refl))|].
  split; [reflexivity|].
  exact (proj1 (proj1 (no_redirect_loop (Samples.fresh_world "/dashboard" "")) eq_refl)).
Defined.

End Redirects.

(** ** What the shared client may touch *)
Section ClientFrame.
Import Effects Trace.

(** X20: a call through the shared client logs exactly that one request,
    hands the reply to the caller unchanged (the data when fulfilled, the
    same error when rejected), never changes the session, the wizard, the
    milestone list, the path or the fragment, and requests a document
    load only for a 401 answer received away from [/]. *)
Theorem client_request_frame :
  forall (A : Type) (r : Request) (reply : Reply A) (w : World),
    calls (events_of (Api.request r reply) w) = [r] /\
    auth (snd (Api.request r reply w)) = auth w /\
    wizard (snd (Api.request r reply w)) = wizard w /\
    completedMilestones (snd (Api.request r reply w)) = completedMilestones w /\
    pathname (location (snd (Api.request r reply w))) = pathname (location w) /\
    hash (location (snd (Api.request r reply w))) = hash (location w) /\
    fst (Api.request r reply w) =
      match reply with
      | Fulfilled data => Ret data
      | Rejected e => Throw e
      end /\
    (href_assigned (location (snd (Api.request r reply w))) <>
       href_assigned (location w) ->
     exists e, reply = Rejected e /\ Api.is_unauthorized e = true /\
               pathname (location w) <> "/").
Proof.
  intros A r [data|e] w.
  - unfold events_of. rewrite request_fulfilled. cbn. rewrite skipn_length_app.
    repeat split. intros H. now contradiction H.
  - unfold events_of. rewrite request_rejected. cbn [fst snd log auth wizard
      completedMilestones location]. rewrite skipn_length_app. cbn [calls].
    rewrite calls_interceptor_events.
    destruct (Api.is_unauthorized e) eqn:E401; cbn [andb];
      [destruct (String.eqb (pathname (location w)) "/") eqn:Ep; cbn [negb]|];
      repeat split; try (intros H; now contradiction H).
    intros _. exists e. split; [reflexivity|]. split; [assumption|].
    now apply String.eqb_neq.
Qed.

Lemma client_request_frame_witness :
  exists e,
    @Rejected unit Samples.unauthorized = Rejected e /\
    Api.is_unauthorized e = true /\
    pathname (location (Samples.signed_in_world "/dashboard" Onboarding.initial []))
      <> "/".
Proof.
  destruct (client_request_frame unit GET_reports (Rejected Samples.unauthorized)
              (Samples.signed_in_world "/dashboard" Onboarding.initial []))
    as (_ & _ & _ & _ & _ & _ & _ & H).
  apply H. discriminate.
Defined.

End ClientFrame.
